(** * go-junos: a shallow embedding of [junos.go]

    [junos.go] is a thin adapter: each method of [Session] picks an RPC
    template from the table [rpcCommand], formats it with [fmt.Sprintf] when
    the template has a slot, hands the text to the NETCONF connection
    ([Conn.Exec]), inspects the reply envelope and decodes its payload with
    [xml.Unmarshal].

    The embedding keeps that shape.  Go statements are terms of a small
    statement monad over the session (with [return] and [log.Fatal] as the
    two ways of leaving a function body early); the connection is a state
    machine the development is parametric in ([NewSession] and [Close],
    which open and close it, follow the methods); the table [rpcCommand], which
    lives in another file of the package, is a parameter as well.  The two
    standard-library calls are modelled on a fragment of their inputs
    (modules [fmt] and [xml]); outside the fragment their result is left to a
    parameter, so that nothing is claimed there. *)

From Stdlib Require Import ZArith String Ascii List Lia.
From Stdlib Require Import DecimalString DecimalPos DecimalZ.
From stdpp Require Import base option strings gmap.

Open Scope string_scope.

(** ** Go values *)

(** Values of Go's interface type [error] met in [junos.go].  [errors_New] is
    what [errors.New] builds; the next two are the errors [xml.Unmarshal]
    reports on the modelled fragment; [foreign_error] stands for any error
    made elsewhere (by the transport, or by a library outside its modelled
    fragment) and carries its message. *)
Inductive error : Type :=
| errors_New (text : string)
| xml_UnmarshalError (text : string)
| io_EOF
| foreign_error (text : string).

(** The method [Error() string] of the interface. *)
Definition Error (e : error) : string :=
  match e with
  | errors_New text => text
  | xml_UnmarshalError text => text
  | io_EOF => "EOF"
  | foreign_error text => text
  end.

(** A Go call that yields [(value, err)] and whose value is read only when
    [err == nil]. *)
Definition result (A : Type) : Type := (error + A)%type.

(** ** The reply envelope of the NETCONF library *)

Module netconf.

(** Modelled from the spec: the envelope type [netconf.RPCReply] and its
    error descriptors belong to the transport library; [junos.go] reads the
    fields [Ok], [Errors] and [Data] of the envelope and the field [Message]
    of a descriptor. *)
Record RPCError : Type := mkRPCError { Message : string }.

Record RPCReply : Type := mkRPCReply {
  Ok : bool;
  Errors : list RPCError;
  Data : string
}.

End netconf.

Export netconf.

(** ** [fmt.Sprintf] on the verbs the templates use *)

Module fmt.

(** An operand of [Sprintf]: [junos.go] passes an [int] or a [string].  The
    methods only print the [int] they are given and never compute with it,
    so it is kept as an integer of any size. *)
Inductive operand : Type :=
| Int (i : Z)
| Str (s : string).

(** [strconv.Itoa]: the decimal rendering of an integer, with a leading
    minus sign for a negative one. *)
Definition Itoa (i : Z) : string := NilZero.string_of_int (Z.to_int i).

Definition typeName (a : operand) : string :=
  match a with
  | Int _ => "int"
  | Str _ => "string"
  end.

(** The rendering under [%v]. *)
Definition valueString (a : operand) : string :=
  match a with
  | Int i => Itoa i
  | Str s => s
  end.

Definition isVerb (c : ascii) : bool :=
  (c =? "d")%char || (c =? "s")%char || (c =? "v")%char.

(** One operand under one of the verbs [d], [s], [v]; a verb that does not
    fit the operand's type is reported in the output as [%!verb(type=value)]. *)
Definition printArg (verb : ascii) (a : operand) : string :=
  match a with
  | Int i =>
      if (verb =? "s")%char then "%!s(int=" ++ Itoa i ++ ")" else Itoa i
  | Str s =>
      if (verb =? "d")%char then "%!d(string=" ++ s ++ ")" else s
  end.

Fixpoint extraList (a : list operand) : string :=
  match a with
  | [] => ""
  | [x] => typeName x ++ "=" ++ valueString x
  | x :: rest => typeName x ++ "=" ++ valueString x ++ ", " ++ extraList rest
  end.

(** Operands left over when the format is exhausted. *)
Definition extra (a : list operand) : string :=
  match a with
  | [] => ""
  | _ => "%!(EXTRA " ++ extraList a ++ ")"
  end.

(** The scan of [doPrintf].  Plain bytes are copied; [%%] is a percent sign;
    [%d], [%s] and [%v] take the next operand.  [None]: the format uses a
    directive outside this fragment (flags, width, precision, an explicit
    operand index, another verb). *)
Fixpoint doPrintf (format : string) (a : list operand) : option string :=
  match format with
  | "" => Some (extra a)
  | String c rest =>
      if (c =? "%")%char then
        match rest with
        | "" => Some ("%!(NOVERB)" ++ extra a)
        | String verb rest' =>
            if (verb =? "%")%char then
              String "%"%char <$> doPrintf rest' a
            else if isVerb verb then
              match a with
              | [] =>
                  append ("%!" ++ String verb "(MISSING)") <$> doPrintf rest' []
              | x :: a' => append (printArg verb x) <$> doPrintf rest' a'
              end
            else None
        end
      else String c <$> doPrintf rest a
  end.

Definition Sprintf (format : string) (a : list operand) : option string :=
  doPrintf format a.

End fmt.

(** ** [xml.Unmarshal] on the element syntax the replies use *)

Module xml.

(** The tokens of [Decoder.Token].  [EmptyElement] stands for the pair of a
    start and an end element that the decoder delivers for [<name/>]. *)
Inductive Token : Type :=
| StartElement (Name : string)
| EndElement (Name : string)
| EmptyElement (Name : string)
| CharData (text : string).

Definition isLetter (c : ascii) : bool :=
  (("A" <=? c)%char && (c <=? "Z")%char) || (("a" <=? c)%char && (c <=? "z")%char).

Definition isDigit (c : ascii) : bool := ("0" <=? c)%char && (c <=? "9")%char.

Definition isNameByte (c : ascii) : bool :=
  isLetter c || isDigit c || (c =? "_")%char || (c =? ":")%char
  || (c =? ".")%char || (c =? "-")%char.

Definition isSpace (c : ascii) : bool :=
  (c =? " ")%char || (c =? "013")%char || (c =? "010")%char || (c =? "009")%char.

(** Bytes copied unchanged into character data: tab, line feed and the ASCII
    range from the space on.  A carriage return (which the decoder rewrites)
    and bytes from 128 on (which it validates as UTF-8) are outside the
    fragment. *)
Definition isPlainByte (c : ascii) : bool :=
  (c =? "009")%char || (c =? "010")%char || ((" " <=? c)%char && (c <=? "127")%char).

Fixpoint span (p : ascii -> bool) (s : string) : string * string :=
  match s with
  | "" => ("", "")
  | String c rest =>
      if p c then let '(taken, remain) := span p rest in (String c taken, remain)
      else ("", s)
  end.

(** [Decoder.space]. *)
Definition space (s : string) : string := snd (span isSpace s).

Fixpoint hasColon (s : string) : bool :=
  match s with
  | "" => false
  | String c rest => (c =? ":")%char || hasColon rest
  end.

(** The name of an element: a letter or underscore followed by name bytes.
    A name with a colon carries a namespace prefix and is outside the
    fragment. *)
Definition elementName (s : string) : option (string * string) :=
  match span isNameByte s with
  | (String c _ as name, rest) =>
      if (isLetter c || (c =? "_")%char) && negb (hasColon name)
      then Some (name, rest) else None
  | _ => None
  end.

(** The name of an attribute; attributes are parsed and dropped, so that a
    prefix is harmless there. *)
Definition attrName (s : string) : option (string * string) :=
  match span isNameByte s with
  | (String c _ as name, rest) =>
      if isLetter c || (c =? "_")%char || (c =? ":")%char
      then Some (name, rest) else None
  | _ => None
  end.

(** The five predefined entities, read after the ampersand; [k] goes on with
    the character an entity stands for and the input behind it. *)
Definition entity {A : Type} (s : string) (k : ascii -> string -> option A)
  : option A :=
  match s with
  | String "l" (String "t" (String ";" rest)) => k "<"%char rest
  | String "g" (String "t" (String ";" rest)) => k ">"%char rest
  | String "a" (String "m" (String "p" (String ";" rest))) => k "&"%char rest
  | String "a" (String "p" (String "o" (String "s" (String ";" rest)))) =>
      k "'"%char rest
  | String "q" (String "u" (String "o" (String "t" (String ";" rest)))) =>
      k "034"%char rest
  | _ => None
  end.

(** [Decoder.text]: character data up to the next [<] ([quote = None]) or an
    attribute value up to its closing quote.  [b0] and [b1] are the two bytes
    read before, kept to reject [[]]>]. *)
Fixpoint text (quote : option ascii) (b0 b1 : ascii) (s : string)
  : option (string * string) :=
  match s with
  | "" => match quote with None => Some ("", "") | Some _ => None end
  | String b rest =>
      if (b0 =? "]")%char && (b1 =? "]")%char && (b =? ">")%char then None
      else if (b =? "<")%char then
        match quote with None => Some ("", s) | Some _ => None end
      else if match quote with Some q => (b =? q)%char | None => false end then
        Some ("", rest)
      else if (b =? "&")%char then
        entity rest (fun c rest' =>
          '(t, remain) ← text quote "000"%char "000"%char rest';
          Some (String c t, remain))
      else if isPlainByte b then
        '(t, remain) ← text quote b1 b rest;
        Some (String b t, remain)
      else None
  end.

(** The attributes of a start tag up to its [>] or [/>]; the flag says which. *)
Fixpoint attributes (fuel : nat) (s : string) : option (bool * string) :=
  match fuel with
  | O => None
  | S fuel' =>
      match space s with
      | String "/" (String ">" rest) => Some (true, rest)
      | String ">" rest => Some (false, rest)
      | s1 =>
          '(_, s2) ← attrName s1;
          match space s2 with
          | String "=" s3 =>
              match space s3 with
              | String q s4 =>
                  if (q =? "034")%char || (q =? "'")%char then
                    '(_, s5) ← text (Some q) "000"%char "000"%char s4;
                    attributes fuel' s5
                  else None
              | "" => None
              end
          | _ => None
          end
      end
  end.

(** [Decoder.Token] on the fragment.  [Some None] is the end of the input;
    [None] is input outside the fragment: comments, processing instructions,
    directives and CDATA sections, and everything the decoder rejects as a
    syntax error. *)
Definition rawToken (s : string) : option (option (Token * string)) :=
  match s with
  | "" => Some None
  | String "<" (String "/" s2) =>
      '(name, s3) ← elementName s2;
      match space s3 with
      | String ">" rest => Some (Some (EndElement name, rest))
      | _ => None
      end
  | String "<" s1 =>
      '(name, s2) ← elementName s1;
      '(empty, rest) ← attributes (S (String.length s2)) s2;
      Some (Some (if empty : bool then EmptyElement name else StartElement name, rest))
  | _ =>
      '(t, rest) ← text None "000"%char "000"%char s;
      Some (Some (CharData t, rest))
  end.

(** How the one decoded field of a struct is tagged: a path of parent
    elements ending in the element whose character data is stored
    ([xml:"a>b"]), or the raw text inside the struct's element
    ([xml:",innerxml"]). *)
Inductive fieldTag : Type :=
| Path (parents : list string) (name : string)
| InnerXML.

(** What [Unmarshal] reads of the struct it fills: the name required by a
    tagged [XMLName] field, if the struct has one, and the tag of [Config]. *)
Record structInfo : Type := mkStruct {
  XMLName_tag : option string;
  Config_tag : fieldTag
}.

(** The part an open element plays while the struct's element is read:
    [Seeking parents] is the struct's element or an element on the field's
    path, with the parents still to be met below it; [Target] is the field's
    element, whose character data is collected; [Skipped] is any other
    element ([Decoder.Skip]). *)
Inductive frame : Type :=
| Seeking (parents : list string)
| Target
| Skipped.

(** [unmarshalPath] at a start element [name] met directly inside [top]. *)
Definition enter (tag : fieldTag) (top : frame) (name : string) : frame :=
  match top, tag with
  | Seeking [], Path _ field => if String.eqb name field then Target else Skipped
  | Seeking (p :: ps), Path _ _ => if String.eqb name p then Seeking ps else Skipped
  | _, _ => Skipped
  end.

(** The loop of [unmarshal] over the content of the struct's element, with
    the loops of [unmarshalPath] and [Skip] folded into the stack of open
    elements.  [data] collects the character data of the open [Target];
    [config] is the field as stored so far.  Yields the field and the input
    left in front of the end tag of the struct's element. *)
Fixpoint elements (fuel : nat) (tag : fieldTag) (stack : list (string * frame))
    (data config : string) (s : string) : option (string * string) :=
  match fuel with
  | O => None
  | S fuel' =>
      tok ← rawToken s;
      match tok, stack with
      | Some (t, rest), (open, fr) :: below =>
          match t with
          | StartElement n =>
              let fr' := enter tag fr n in
              elements fuel' tag ((n, fr') :: stack)
                (match fr' with Target => "" | _ => data end) config rest
          | EmptyElement n =>
              elements fuel' tag stack data
                (match enter tag fr n with Target => "" | _ => config end) rest
          | EndElement n =>
              if String.eqb n open then
                let config' := match fr with Target => data | _ => config end in
                match below with
                | [] => Some (config', s)
                | _ => elements fuel' tag below data config' rest
                end
              else None
          | CharData t =>
              elements fuel' tag stack
                (match fr with Target => data ++ t | _ => data end) config rest
          end
      | _, _ => None
      end
  end.

(** The search of [unmarshal] for the first start element.  Character data
    in front of it is dropped; the end of the input is [io.EOF]. *)
Fixpoint findStart (fuel : nat) (s : string)
  : option (result (string * bool * string)) :=
  match fuel with
  | O => None
  | S fuel' =>
      tok ← rawToken s;
      match tok with
      | None => Some (inl io_EOF)
      | Some (StartElement n, rest) => Some (inr (n, false, rest))
      | Some (EmptyElement n, rest) => Some (inr (n, true, rest))
      | Some (CharData _, rest) => findStart fuel' rest
      | Some (EndElement _, _) => None
      end
  end.

Definition take (n : nat) (s : string) : string := substring 0 n s.

(** [xml.Unmarshal(data, v)] for a struct [v] described by [info]: the value
    stored in [v.Config], or the error returned.  Input after the end of the
    first element is not read. *)
Definition Unmarshal (data : string) (info : structInfo) : option (result string) :=
  found ← findStart (S (String.length data)) data;
  match found with
  | inl e => Some (inl e)
  | inr (name, empty, rest) =>
      let mismatch :=
        match XMLName_tag info with
        | Some want => negb (String.eqb want name)
        | None => false
        end in
      if mismatch then
        Some (inl (xml_UnmarshalError
          ("expected element type <" ++ default "" (XMLName_tag info)
           ++ "> but have <" ++ name ++ ">")))
      else if empty : bool then Some (inr "")
      else
        let root :=
          match Config_tag info with
          | Path parents _ => Seeking parents
          | InnerXML => Seeking []
          end in
        '(config, remain) ← elements (S (String.length rest)) (Config_tag info)
                            [(name, root)] "" "" rest;
        Some (inr match Config_tag info with
                  | Path _ _ => config
                  | InnerXML => take (String.length rest - String.length remain) rest
                  end)
  end.

End xml.

(** ** Go statements *)

(** How a statement ends: control goes on to the next statement, the
    enclosing function returns, or the process exits ([log.Fatal]). *)
Inductive flow (R A : Type) : Type :=
| Next (a : A)
| Return_ (r : R)
| Exit (e : error).

Arguments Next {R A} a.
Arguments Return_ {R A} r.
Arguments Exit {R A} e.

(** A statement of a function with results [R], run over a state [St]. *)
Definition stmt (St R A : Type) : Type := St -> St * flow R A.

Definition next {St R A : Type} (a : A) : stmt St R A := fun s => (s, Next a).

Definition bind {St R A B : Type} (c : stmt St R A) (k : A -> stmt St R B)
  : stmt St R B :=
  fun s =>
    match c s with
    | (s', Next a) => k a s'
    | (s', Return_ r) => (s', Return_ r)
    | (s', Exit e) => (s', Exit e)
    end.

Notation "x <- c ;; k" := (bind c (fun x => k))
  (at level 100, c at next level, right associativity).
Notation "c ;; k" := (bind c (fun _ => k))
  (at level 100, right associativity).

(** [return r]. *)
Definition Return {St R A : Type} (r : R) : stmt St R A := fun s => (s, Return_ r).

(** [log.Fatal(e)]: the error is printed and the process exits with status 1. *)
Definition log_Fatal {St R A : Type} (e : error) : stmt St R A :=
  fun s => (s, Exit e).

(** [if err != nil { log.Fatal(err) }] behind a call that yields [(a, err)]. *)
Definition check {St R A : Type} (r : result A) : stmt St R A :=
  match r with
  | inl err => log_Fatal err
  | inr a => next a
  end.

(** [if cond { body }]. *)
Definition when {St R : Type} (cond : bool) (body : stmt St R unit)
  : stmt St R unit :=
  if cond then body else next tt.

(** [for _, x := range xs { body }]. *)
Fixpoint for_range {St R A : Type} (xs : list A) (body : A -> stmt St R unit)
  : stmt St R unit :=
  match xs with
  | [] => next tt
  | x :: rest => body x ;; for_range rest body
  end.

(** How a call ends for its caller. *)
Inductive outcome (R : Type) : Type :=
| Returned (r : R)
| Exited (e : error).

Arguments Returned {R} r.
Arguments Exited {R} e.

(** A function body: its last statement leaves it, it cannot fall through. *)
Definition func {St R : Type} (body : stmt St R Empty_set) : St -> St * outcome R :=
  fun s =>
    match body s with
    | (s', Next a) => match a with end
    | (s', Return_ r) => (s', Returned r)
    | (s', Exit e) => (s', Exited e)
    end.

(** ** The structs that describe the payloads ([junos.go], lines 17-32)

    [xml.Unmarshal] knows a struct by its tags.  Each of the three structs
    has the one decoded field [Config]; a fresh struct holds the empty
    string there, and what [Unmarshal] yields below is the field as the call
    leaves it. *)

Definition rollbackXML : xml.structInfo :=
  {| xml.XMLName_tag := Some "rollback-information";
     xml.Config_tag := xml.Path ["configuration-information"] "configuration-output" |}.

Definition rescueXML : xml.structInfo :=
  {| xml.XMLName_tag := Some "rescue-information";
     xml.Config_tag := xml.Path ["configuration-information"] "configuration-output" |}.

Definition commandXML : xml.structInfo :=
  {| xml.XMLName_tag := None; xml.Config_tag := xml.InnerXML |}.

(** ** The session and its methods *)

(** [Session] holds the connection.  The connection is known here only
    through [Exec]: a state [conn] of the device and of the channel to it,
    and what executing an RPC text does to that state and yields. *)
Record Session (conn : Type) : Type := mkSession { Conn : conn }.

Arguments mkSession {conn} Conn.
Arguments Conn {conn} s.

Section Junos.

Variable conn : Type.
Variable Exec : conn -> string -> conn * result RPCReply.

(** The table of RPC templates, [var rpcCommand map[string]string], declared
    in another file of the package. *)
Variable rpcCommand : gmap string string.

(** What the two library calls yield outside their modelled fragments. *)
Variable Sprintf_beyond : string -> list fmt.operand -> string.
Variable Unmarshal_beyond : string -> xml.structInfo -> result string.

(** [rpcCommand[key]]: a missing key reads as the empty string. *)
Definition rpcCommand_at (key : string) : string := default "" (rpcCommand !! key).

Definition fmt_Sprintf (format : string) (a : list fmt.operand) : string :=
  match fmt.Sprintf format a with
  | Some s => s
  | None => Sprintf_beyond format a
  end.

Definition xml_Unmarshal (data : string) (v : xml.structInfo) : result string :=
  match xml.Unmarshal data v with
  | Some r => r
  | None => Unmarshal_beyond data v
  end.

(** [s.Conn.Exec(command)]. *)
Definition Conn_Exec {R : Type} (command : string)
  : stmt (Session conn) R (result RPCReply) :=
  fun s => let '(c, r) := Exec (Conn s) command in (mkSession c, Next r).

(** Lock locks the candidate configuration. *)
Definition Lock : Session conn -> Session conn * outcome (option error) :=
  func (
    r <- Conn_Exec (rpcCommand_at "lock") ;;
    resp <- check r ;;
    when (Bool.eqb (Ok resp) false)
      (for_range (Errors resp) (fun m =>
         Return (Some (errors_New (Message m))))) ;;
    Return None).

(** Unlock unlocks the candidate configuration. *)
Definition Unlock : Session conn -> Session conn * outcome (option error) :=
  func (
    r <- Conn_Exec (rpcCommand_at "unlock") ;;
    resp <- check r ;;
    when (Bool.eqb (Ok resp) false)
      (for_range (Errors resp) (fun m =>
         Return (Some (errors_New (Message m))))) ;;
    Return None).

(** GetRollbackConfig returns the configuration of the given rollback state. *)
Definition GetRollbackConfig (number : Z)
  : Session conn -> Session conn * outcome (string * option error) :=
  func (
    let rb := rollbackXML in
    let command :=
      fmt_Sprintf (rpcCommand_at "get-rollback-information") [fmt.Int number] in
    r <- Conn_Exec command ;;
    reply <- check r ;;
    when (Bool.eqb (Ok reply) false)
      (for_range (Errors reply) (fun m =>
         Return ("", Some (errors_New (Message m))))) ;;
    rb_Config <- check (xml_Unmarshal (Data reply) rb) ;;
    Return (rb_Config, None)).

(** RollbackDiff compares the current active configuration to a given
    rollback configuration. *)
Definition RollbackDiff (compare : Z)
  : Session conn -> Session conn * outcome (string * option error) :=
  func (
    let rb := rollbackXML in
    let command :=
      fmt_Sprintf (rpcCommand_at "get-rollback-information-compare")
        [fmt.Int compare] in
    r <- Conn_Exec command ;;
    reply <- check r ;;
    when (Bool.eqb (Ok reply) false)
      (for_range (Errors reply) (fun m =>
         Return ("", Some (errors_New (Message m))))) ;;
    rb_Config <- check (xml_Unmarshal (Data reply) rb) ;;
    Return (rb_Config, None)).

(** GetRescueConfig returns the rescue configuration. *)
Definition GetRescueConfig
  : Session conn -> Session conn * outcome (string * option error) :=
  func (
    let rescue := rescueXML in
    r <- Conn_Exec (rpcCommand_at "get-rescue-information") ;;
    reply <- check r ;;
    when (Bool.eqb (Ok reply) false)
      (for_range (Errors reply) (fun m =>
         Return ("", Some (errors_New (Message m))))) ;;
    rescue_Config <- check (xml_Unmarshal (Data reply) rescue) ;;
    when (String.eqb rescue_Config "")
      (Return ("No rescue configuration set.", None)) ;;
    Return (rescue_Config, None)).

(** Command runs any operational mode command, such as "show" or "request".
    Format is either "text" or "xml".  (The [switch] on [format] has the one
    case "xml" and a default.) *)
Definition Command (cmd format : string)
  : Session conn -> Session conn * outcome (string * option error) :=
  func (
    let c := commandXML in
    let command :=
      if String.eqb format "xml"
      then fmt_Sprintf (rpcCommand_at "command-xml") [fmt.Str cmd]
      else fmt_Sprintf (rpcCommand_at "command") [fmt.Str cmd] in
    r <- Conn_Exec command ;;
    reply <- check r ;;
    when (Bool.eqb (Ok reply) false)
      (for_range (Errors reply) (fun m =>
         Return ("", Some (errors_New (Message m))))) ;;
    c_Config <- check (xml_Unmarshal (Data reply) c) ;;
    when (String.eqb c_Config "")
      (Return ("No output available.", None)) ;;
    Return (c_Config, None)).

(** *** The RPC text each formatting method hands to [Exec] *)

Definition rollbackCommand (number : Z) : string :=
  fmt_Sprintf (rpcCommand_at "get-rollback-information") [fmt.Int number].

Definition compareCommand (compare : Z) : string :=
  fmt_Sprintf (rpcCommand_at "get-rollback-information-compare") [fmt.Int compare].

Definition operationalCommand (cmd format : string) : string :=
  if String.eqb format "xml"
  then fmt_Sprintf (rpcCommand_at "command-xml") [fmt.Str cmd]
  else fmt_Sprintf (rpcCommand_at "command") [fmt.Str cmd].

(** *** What a call yields, read off the envelope

    The two shapes the method bodies share, written as functions of what
    [Exec] yielded: used to state and prove the properties below. *)

(** The device error of an envelope: the first descriptor of an envelope
    that is not marked [Ok]. *)
Definition deviceError (reply : RPCReply) : option error :=
  match Ok reply, Errors reply with
  | false, m :: _ => Some (errors_New (Message m))
  | _, _ => None
  end.

(** [Lock] and [Unlock]. *)
Definition lockOutcome (r : result RPCReply) : outcome (option error) :=
  match r with
  | inl err => Exited err
  | inr resp => Returned (deviceError resp)
  end.

(** The four methods that fetch text: the payload is decoded into the struct
    [v]; an empty text is replaced by [fallback] when there is one. *)
Definition fetchOutcome (v : xml.structInfo) (fallback : option string)
    (r : result RPCReply) : outcome (string * option error) :=
  match r with
  | inl err => Exited err
  | inr reply =>
      match deviceError reply with
      | Some e => Returned ("", Some e)
      | None =>
          match xml_Unmarshal (Data reply) v with
          | inl err => Exited err
          | inr text =>
              match fallback with
              | Some placeholder =>
                  Returned (if String.eqb text "" then placeholder else text, None)
              | None => Returned (text, None)
              end
          end
      end
  end.

End Junos.

Arguments Conn_Exec {conn} Exec {R} command.
Arguments Lock {conn} Exec rpcCommand s.
Arguments Unlock {conn} Exec rpcCommand s.
Arguments GetRollbackConfig {conn} Exec rpcCommand Sprintf_beyond Unmarshal_beyond number s.
Arguments RollbackDiff {conn} Exec rpcCommand Sprintf_beyond Unmarshal_beyond compare s.
Arguments GetRescueConfig {conn} Exec rpcCommand Unmarshal_beyond s.
Arguments Command {conn} Exec rpcCommand Sprintf_beyond Unmarshal_beyond cmd format s.

(** ** Connections used to state and to test properties *)

(** A connection that answers every RPC with [r]. *)
Definition replying (r : result RPCReply) : unit -> string -> unit * result RPCReply :=
  fun c _ => (c, r).

(** A connection with a journal: [Exec], and every RPC text it was given, in
    order. *)
Definition recording {conn : Type} (Exec : conn -> string -> conn * result RPCReply)
  : conn * list string -> string -> (conn * list string) * result RPCReply :=
  fun '(c, journal) command =>
    let '(c', r) := Exec c command in ((c', (journal ++ [command])%list), r).

(** The RPC texts a call over a journalled connection has sent. *)
Definition sent {conn R : Type}
    (run : Session (conn * list string) * outcome R) : list string :=
  snd (Conn (fst run)).

(** A table of templates to run examples with: the keys are those
    [junos.go] looks up; the texts are sample Junos RPCs of the shape the
    package documents (one [%d] or [%s] slot where the method formats), not
    the texts of the package's own table.  The comparison RPC of Junos names
    both configurations; the sample compares against rollback 0, the active
    configuration. *)
Definition sampleCommands : gmap string string :=
  list_to_map [
    ("command", "<command format='text'>%s</command>");
    ("command-xml", "<command format='xml'>%s</command>");
    ("get-rescue-information",
     "<get-rescue-information><format>text</format></get-rescue-information>");
    ("get-rollback-information",
     "<get-rollback-information><rollback>%d</rollback></get-rollback-information>");
    ("get-rollback-information-compare",
     "<get-rollback-information><rollback>0</rollback><compare>%d</compare></get-rollback-information>");
    ("lock", "<lock><target><candidate/></target></lock>");
    ("unlock", "<unlock><target><candidate/></target></unlock>")
  ].

(** Sample envelopes.  The first two are those of the specification's
    scenarios: two error descriptors "A" and "B" on an envelope that is not
    marked [Ok], and the rollback comparison that found no changes. *)
Definition envelopeAB : RPCReply :=
  {| Ok := false; Errors := [mkRPCError "A"; mkRPCError "B"]; Data := "" |}.

Definition noChanges : RPCReply :=
  {| Ok := true;
     Errors := [];
     Data := "<rollback-information><configuration-information><configuration-output>no changes</configuration-output></configuration-information></rollback-information>" |}.





Definition someOutput : RPCReply :=
  {| Ok := true; Errors := []; Data := "<output>Model: mx480</output>" |}.


(** A connection that counts the RPCs it has executed and marks every reply
    [Ok]. *)
Definition counting : nat -> string -> nat * result RPCReply :=
  fun executed _ => (S executed, inr {| Ok := true; Errors := []; Data := "<ok/>" |}).

(** Stand-ins for the library calls outside their fragments, for examples
    that stay inside. *)
Definition noSprintf : string -> list fmt.operand -> string := fun _ _ => "".
Definition noUnmarshal : string -> xml.structInfo -> result string :=
  fun _ _ => inl (foreign_error "outside the modelled fragment").

(** ** Predicates the properties are stated with *)

(** Every byte of [s] satisfies [p]. *)
Fixpoint allBytes (p : ascii -> bool) (s : string) : bool :=
  match s with
  | "" => true
  | String c rest => p c && allBytes p rest
  end.

(** Template text around a slot: no percent sign, so no further directive. *)
Definition plainText (s : string) : bool :=
  allBytes (fun c => negb (c =? "%")%char) s.







(** ** Opening and closing a session ([junos.go], lines 34-45 and 189-192) *)

(** Modelled from the spec: the password configuration that
    [netconf.SSHConfigPassword(user, password)] builds for [DialSSH]; the
    transport library is known here by what is passed to it. *)
Record SSHConfig : Type := SSHConfigPassword { User : string; Password : string }.

(** A procedure body: a function without results returns when its last
    statement is done. *)
Definition proc {St : Type} (body : stmt St unit unit) : St -> St * outcome unit :=
  fun s =>
    match body s with
    | (s', Next _) => (s', Returned tt)
    | (s', Return_ r) => (s', Returned r)
    | (s', Exit e) => (s', Exited e)
    end.

Section Lifecycle.

Variable conn : Type.

(** [netconf.DialSSH]: the connection it opens to a host, or its error. *)
Variable DialSSH : string -> SSHConfig -> result conn.

(** [Conn.Close]: what closing does to the connection, and the error it
    reports. *)
Variable Conn_Close : conn -> conn * option error.

Definition netconf_DialSSH {St R : Type} (target : string) (config : SSHConfig)
  : stmt St R (result conn) :=
  fun w => (w, Next (DialSSH target config)).

(** NewSession establishes a new connection to a Junos device that we will
    use to run our commands against.  (No session exists before the call:
    the body runs over the empty state.) *)
Definition NewSession (host user password : string) : outcome (Session conn) :=
  snd (func (
    r <- netconf_DialSSH host (SSHConfigPassword user password) ;;
    s <- check r ;;
    Return (mkSession s)) tt).

(** [s.Conn.Close()], whose result [Close] does not look at. *)
Definition Conn_Close_call {R : Type} : stmt (Session conn) R (option error) :=
  fun s => let '(c, err) := Conn_Close (Conn s) in (mkSession c, Next err).

(** Close disconnects and closes the session to our Junos device. *)
Definition Close : Session conn -> Session conn * outcome unit :=
  proc (
    _ <- Conn_Close_call ;;
    next tt).

End Lifecycle.

Arguments NewSession {conn} DialSSH host user password.
Arguments Close {conn} Conn_Close s.

(** ** Payloads written out *)

(** The element [<name>content</name>]. *)
Definition element (name content : string) : string :=
  "<" ++ name ++ ">" ++ content ++ "</" ++ name ++ ">".

(** The document the rollback methods decode, around a configuration text,
    and the one [GetRescueConfig] decodes. *)
Definition rollbackDocument (text : string) : string :=
  element "rollback-information"
    (element "configuration-information" (element "configuration-output" text)).

Definition rescueDocument (text : string) : string :=
  element "rescue-information"
    (element "configuration-information" (element "configuration-output" text)).

(** A byte of character data that stands for itself: a plain byte that opens
    no markup ([<]), no entity ([&]) and cannot close a CDATA section ([>]). *)
Definition isDataByte (c : ascii) : bool :=
  xml.isPlainByte c && negb (c =? "<")%char && negb (c =? "&")%char
  && negb (c =? ">")%char.

Definition characterData (s : string) : bool := allBytes isDataByte s.

(** An element name of the modelled fragment. *)
Definition validName (n : string) : bool :=
  match n with
  | "" => false
  | String c _ =>
      (xml.isLetter c || (c =? "_")%char) && negb (xml.hasColon n)
      && allBytes xml.isNameByte n
  end.

(** ** Further sample inputs *)

(** An envelope marked [Ok] that lists a descriptor all the same. *)
Definition warnedOk : RPCReply :=
  {| Ok := true;
     Errors := [mkRPCError "warning: statement ignored"];
     Data := rollbackDocument "no changes" |}.

(** A comparison that found changes, and the output of an operational
    command, each with the line feeds a device puts around the element. *)
Definition sampleDiff : string :=
  "[edit system]
-  host-name r1;
+  host-name r2;
".

Definition diffReply : RPCReply :=
  {| Ok := true;
     Errors := [];
     Data := String "010" "" ++ rollbackDocument sampleDiff ++ String "010" "" |}.

Definition rescueReply : RPCReply :=
  {| Ok := true;
     Errors := [];
     Data := String "010" "" ++ rescueDocument sampleDiff ++ String "010" "" |}.


(** A host that takes one password, dialled into a [counting] connection
    whose closing reports an error. *)
Definition sampleDial : string -> SSHConfig -> result nat :=
  fun host config =>
    if String.eqb host "r1.example.net" && String.eqb (Password config) "secret"
    then inr 0
    else inl (foreign_error "ssh: unable to authenticate").

Definition countingClose : nat -> nat * option error :=
  fun executed => (executed, Some (foreign_error "close: broken pipe")).

(** A connection that, once closed, refuses every RPC.  The connection
    state says whether it is open. *)
Definition sampleExec : bool -> string -> bool * result RPCReply :=
  fun open _ =>
    (open, if open then inr {| Ok := true; Errors := []; Data := "<ok/>" |}
           else inl (foreign_error "session closed")).

Definition sampleClose : bool -> bool * option error :=
  fun _ => (false, None).

(** * Properties *)

(** ** The library models at sample inputs *)

Example Sprintf_negative :
  fmt.Sprintf "<rollback>%d</rollback>" [fmt.Int (-7)] = Some "<rollback>-7</rollback>".
Proof. reflexivity. Qed.

Example Sprintf_wrong_type :
  fmt.Sprintf "<rollback>%d</rollback>" [fmt.Str "seven"]
  = Some "<rollback>%!d(string=seven)</rollback>".
Proof. reflexivity. Qed.

Example Sprintf_no_slot :
  fmt.Sprintf "<lock/>" [fmt.Str "show version"]
  = Some "<lock/>%!(EXTRA string=show version)".
Proof. reflexivity. Qed.

Example Sprintf_width_not_modelled :
  fmt.Sprintf "<rollback>%2d</rollback>" [fmt.Int 7] = None.
Proof. reflexivity. Qed.

(** The field takes the character data directly inside its element; other
    elements are skipped, attributes are dropped, entities are decoded, and
    what follows the first element is not read. *)
Example Unmarshal_path :
  xml.Unmarshal
    "
<rollback-information xmlns='http://xml.juniper.net/junos'><load-success/><configuration-information><configuration-output>[edit]
+ a &lt; b<mark>skipped</mark>;
</configuration-output></configuration-information></rollback-information> trailing <<"
    rollbackXML
  = Some (inr "[edit]
+ a < b;
").
Proof. vm_compute. reflexivity. Qed.

(** A later element of the same path overwrites the field. *)
Example Unmarshal_last_element :
  xml.Unmarshal
    "<rollback-information><configuration-information><configuration-output>one</configuration-output><configuration-output>two</configuration-output></configuration-information></rollback-information>"
    rollbackXML
  = Some (inr "two").
Proof. vm_compute. reflexivity. Qed.

Example Unmarshal_other_root :
  xml.Unmarshal "<rescue-information/>" rollbackXML
  = Some (inl (xml_UnmarshalError
       "expected element type <rollback-information> but have <rescue-information>")).
Proof. vm_compute. reflexivity. Qed.

(** The inner XML is the raw text inside the first element, whatever its
    name. *)
Example Unmarshal_innerxml :
  xml.Unmarshal
    "<output>up <b since='1 &amp; 2'>3 days</b> &amp; counting</output><ignored/>"
    commandXML
  = Some (inr "up <b since='1 &amp; 2'>3 days</b> &amp; counting").
Proof. vm_compute. reflexivity. Qed.

Example Unmarshal_comment_not_modelled :
  xml.Unmarshal "<output><!-- note --></output>" commandXML = None.
Proof. vm_compute. reflexivity. Qed.

(** ** The envelope check *)

Lemma for_range_Return {St R A : Type} (f : A -> R) (xs : list A) (s : St) :
  for_range xs (fun m => Return (f m)) s =
  (s, match xs with [] => Next tt | m :: _ => Return_ (f m) end).
Proof. destruct xs as [|m rest]; reflexivity. Qed.

Lemma envelope_check {St R : Type} (f : RPCError -> R) (reply : RPCReply) (s : St) :
  when (Bool.eqb (Ok reply) false)
    (for_range (Errors reply) (fun m => Return (f m))) s =
  (s, match Ok reply, Errors reply with
      | false, m :: _ => Return_ (f m)
      | _, _ => Next tt
      end).
Proof.
  unfold when. destruct (Ok reply); simpl; [reflexivity|].
  apply for_range_Return.
Qed.

Lemma deviceError_None (reply : RPCReply) :
  deviceError reply = None <-> Ok reply = true \/ Errors reply = [].
Proof.
  unfold deviceError. destruct (Ok reply), (Errors reply); split; intros H;
    try reflexivity; try discriminate; auto.
  destruct H as [H|H]; discriminate.
Qed.


(** ** Every method is its outcome function applied to what [Exec] yields *)

Section Methods.

Context {conn : Type}.
Variable Exec : conn -> string -> conn * result RPCReply.
Variable rpcCommand : gmap string string.
Variable Sprintf_beyond : string -> list fmt.operand -> string.
Variable Unmarshal_beyond : string -> xml.structInfo -> result string.

(** The statements every fetching method runs behind [Exec]. *)
Lemma fetch_body (v : xml.structInfo) (fallback : option string)
    (command : string) (s : Session conn) :
  func (
    r <- Conn_Exec Exec command ;;
    reply <- check r ;;
    when (Bool.eqb (Ok reply) false)
      (for_range (Errors reply) (fun m =>
         Return ("", Some (errors_New (Message m))))) ;;
    text <- check (xml_Unmarshal Unmarshal_beyond (Data reply) v) ;;
    match fallback with
    | Some placeholder =>
        when (String.eqb text "") (Return (placeholder, None)) ;;
        Return (text, None)
    | None => Return (text, None)
    end) s =
  (mkSession (fst (Exec (Conn s) command)),
   fetchOutcome Unmarshal_beyond v fallback (snd (Exec (Conn s) command))).
Proof.
  unfold func, bind, Conn_Exec.
  destruct (Exec (Conn s) command) as [c [err|reply]]; simpl; [reflexivity|].
  rewrite envelope_check. unfold deviceError.
  destruct (Ok reply), (Errors reply) as [|m rest]; simpl;
    destruct (xml_Unmarshal Unmarshal_beyond (Data reply) v) as [err|text]; simpl;
    try reflexivity;
    destruct fallback as [placeholder|]; simpl; try reflexivity;
    unfold bind, when; destruct (String.eqb text ""); reflexivity.
Qed.

Lemma Lock_outcome (s : Session conn) :
  Lock Exec rpcCommand s =
  (mkSession (fst (Exec (Conn s) (rpcCommand_at rpcCommand "lock"))),
   lockOutcome (snd (Exec (Conn s) (rpcCommand_at rpcCommand "lock")))).
Proof.
  unfold Lock, func, bind, Conn_Exec.
  destruct (Exec (Conn s) _) as [c [err|resp]]; simpl; [reflexivity|].
  rewrite envelope_check. unfold deviceError.
  destruct (Ok resp), (Errors resp); reflexivity.
Qed.

Lemma Unlock_outcome (s : Session conn) :
  Unlock Exec rpcCommand s =
  (mkSession (fst (Exec (Conn s) (rpcCommand_at rpcCommand "unlock"))),
   lockOutcome (snd (Exec (Conn s) (rpcCommand_at rpcCommand "unlock")))).
Proof.
  unfold Unlock, func, bind, Conn_Exec.
  destruct (Exec (Conn s) _) as [c [err|resp]]; simpl; [reflexivity|].
  rewrite envelope_check. unfold deviceError.
  destruct (Ok resp), (Errors resp); reflexivity.
Qed.

Lemma GetRollbackConfig_outcome (number : Z) (s : Session conn) :
  GetRollbackConfig Exec rpcCommand Sprintf_beyond Unmarshal_beyond number s =
  (mkSession (fst (Exec (Conn s) (rollbackCommand rpcCommand Sprintf_beyond number))),
   fetchOutcome Unmarshal_beyond rollbackXML None (snd (Exec (Conn s) (rollbackCommand rpcCommand Sprintf_beyond number)))).
Proof. exact (fetch_body rollbackXML None (rollbackCommand rpcCommand Sprintf_beyond number) s). Qed.

Lemma RollbackDiff_outcome (compare : Z) (s : Session conn) :
  RollbackDiff Exec rpcCommand Sprintf_beyond Unmarshal_beyond compare s =
  (mkSession (fst (Exec (Conn s) (compareCommand rpcCommand Sprintf_beyond compare))),
   fetchOutcome Unmarshal_beyond rollbackXML None (snd (Exec (Conn s) (compareCommand rpcCommand Sprintf_beyond compare)))).
Proof. exact (fetch_body rollbackXML None (compareCommand rpcCommand Sprintf_beyond compare) s). Qed.

Lemma GetRescueConfig_outcome (s : Session conn) :
  GetRescueConfig Exec rpcCommand Unmarshal_beyond s =
  (mkSession (fst (Exec (Conn s) (rpcCommand_at rpcCommand "get-rescue-information"))),
   fetchOutcome Unmarshal_beyond rescueXML (Some "No rescue configuration set.")
     (snd (Exec (Conn s) (rpcCommand_at rpcCommand "get-rescue-information")))).
Proof.
  exact (fetch_body rescueXML (Some "No rescue configuration set.")
           (rpcCommand_at rpcCommand "get-rescue-information") s).
Qed.

Lemma Command_outcome (cmd format : string) (s : Session conn) :
  Command Exec rpcCommand Sprintf_beyond Unmarshal_beyond cmd format s =
  (mkSession (fst (Exec (Conn s) (operationalCommand rpcCommand Sprintf_beyond cmd format))),
   fetchOutcome Unmarshal_beyond commandXML (Some "No output available.")
     (snd (Exec (Conn s) (operationalCommand rpcCommand Sprintf_beyond cmd format)))).
Proof.
  exact (fetch_body commandXML (Some "No output available.")
           (operationalCommand rpcCommand Sprintf_beyond cmd format) s).
Qed.

End Methods.

(** ** Device errors, success and the placeholders *)

Section Envelopes.

Context {conn : Type}.
Variable Exec : conn -> string -> conn * result RPCReply.
Variable rpcCommand : gmap string string.
Variable Sprintf_beyond : string -> list fmt.operand -> string.
Variable Unmarshal_beyond : string -> xml.structInfo -> result string.

(** C2: when the envelope is not marked [Ok] and lists at least one error
    descriptor, every method returns an error whose message is exactly the
    message of the first descriptor (the fetching methods with the empty
    string); the descriptors behind the first play no part. *)
Theorem first_descriptor_only (s : Session conn) (reply : RPCReply)
    (m : RPCError) (rest : list RPCError) :
  (forall command, snd (Exec (Conn s) command) = inr reply) ->
  Ok reply = false ->
  Errors reply = m :: rest ->
  let e := errors_New (Message m) in
  Error e = Message m /\
  snd (Lock Exec rpcCommand s) = Returned (Some e) /\
  snd (Unlock Exec rpcCommand s) = Returned (Some e) /\
  (forall number,
     snd (GetRollbackConfig Exec rpcCommand Sprintf_beyond Unmarshal_beyond number s)
     = Returned ("", Some e)) /\
  (forall compare,
     snd (RollbackDiff Exec rpcCommand Sprintf_beyond Unmarshal_beyond compare s)
     = Returned ("", Some e)) /\
  snd (GetRescueConfig Exec rpcCommand Unmarshal_beyond s) = Returned ("", Some e) /\
  (forall cmd format,
     snd (Command Exec rpcCommand Sprintf_beyond Unmarshal_beyond cmd format s)
     = Returned ("", Some e)).
Proof.
  intros Hexec Hok Herrors e.
  assert (Hdev : deviceError reply = Some e)
    by (unfold deviceError; rewrite Hok, Herrors; reflexivity).
  split; [reflexivity|].
  rewrite Lock_outcome, Unlock_outcome, GetRescueConfig_outcome. simpl.
  rewrite !Hexec. simpl. rewrite Hdev.
  repeat split; try reflexivity; intros.
  - rewrite GetRollbackConfig_outcome. simpl. rewrite Hexec. simpl.
    rewrite Hdev. reflexivity.
  - rewrite RollbackDiff_outcome. simpl. rewrite Hexec. simpl.
    rewrite Hdev. reflexivity.
  - rewrite Command_outcome. simpl. rewrite Hexec. simpl.
    rewrite Hdev. reflexivity.
Qed.

(** C8: over a connection whose every reply is marked [Ok], [Lock] followed
    by [Unlock] on the same session returns [nil] twice. *)
Theorem lock_then_unlock (s : Session conn) :
  (forall c command, exists reply,
      snd (Exec c command) = inr reply /\ Ok reply = true) ->
  snd (Lock Exec rpcCommand s) = Returned None /\
  snd (Unlock Exec rpcCommand (fst (Lock Exec rpcCommand s))) = Returned None.
Proof.
  intros Hexec. split.
  - rewrite Lock_outcome. simpl.
    destruct (Hexec (Conn s) (rpcCommand_at rpcCommand "lock")) as (reply & -> & Hok).
    simpl. unfold deviceError. rewrite Hok. reflexivity.
  - rewrite Unlock_outcome. simpl.
    destruct (Hexec (Conn (fst (Lock Exec rpcCommand s)))
                (rpcCommand_at rpcCommand "unlock")) as (reply & -> & Hok).
    simpl. unfold deviceError. rewrite Hok. reflexivity.
Qed.



(** C10: when the connection answers the call of [GetRollbackConfig] and the
    call of [RollbackDiff] with the same envelope, the two calls end the same
    way: same string, same error, or the same fatal exit. *)
Theorem fetch_and_diff_agree (number compare : Z) (s s' : Session conn)
    (reply : RPCReply) :
  snd (Exec (Conn s) (rollbackCommand rpcCommand Sprintf_beyond number)) = inr reply ->
  snd (Exec (Conn s') (compareCommand rpcCommand Sprintf_beyond compare)) = inr reply ->
  snd (GetRollbackConfig Exec rpcCommand Sprintf_beyond Unmarshal_beyond number s)
  = snd (RollbackDiff Exec rpcCommand Sprintf_beyond Unmarshal_beyond compare s').
Proof.
  intros Hfetch Hdiff.
  rewrite GetRollbackConfig_outcome, RollbackDiff_outcome. simpl.
  rewrite Hfetch, Hdiff. reflexivity.
Qed.

End Envelopes.

(** ** Envelopes that are not [Ok] and list no error *)

Section NoDescriptor.

Context {conn : Type}.
Variable Exec : conn -> string -> conn * result RPCReply.
Variable rpcCommand : gmap string string.
Variable Sprintf_beyond : string -> list fmt.operand -> string.
Variable Unmarshal_beyond : string -> xml.structInfo -> result string.


End NoDescriptor.

(** ** The RPC text a method sends *)

Section Sent.

Context {conn : Type}.
Variable Exec : conn -> string -> conn * result RPCReply.
Variable rpcCommand : gmap string string.
Variable Sprintf_beyond : string -> list fmt.operand -> string.
Variable Unmarshal_beyond : string -> xml.structInfo -> result string.

Lemma recording_journal (c : conn) (journal : list string) (command : string) :
  snd (fst (recording Exec (c, journal) command)) = (journal ++ [command])%list.
Proof. unfold recording. destruct (Exec c command). reflexivity. Qed.

Lemma GetRollbackConfig_sent (number : Z) (c : conn) (journal : list string) :
  sent (GetRollbackConfig (recording Exec) rpcCommand Sprintf_beyond Unmarshal_beyond
          number (mkSession (c, journal)))
  = (journal ++ [rollbackCommand rpcCommand Sprintf_beyond number])%list.
Proof.
  rewrite GetRollbackConfig_outcome. unfold sent. simpl. apply recording_journal.
Qed.

Lemma RollbackDiff_sent (compare : Z) (c : conn) (journal : list string) :
  sent (RollbackDiff (recording Exec) rpcCommand Sprintf_beyond Unmarshal_beyond
          compare (mkSession (c, journal)))
  = (journal ++ [compareCommand rpcCommand Sprintf_beyond compare])%list.
Proof.
  rewrite RollbackDiff_outcome. unfold sent. simpl. apply recording_journal.
Qed.

Lemma Command_sent (cmd format : string) (c : conn) (journal : list string) :
  sent (Command (recording Exec) rpcCommand Sprintf_beyond Unmarshal_beyond
          cmd format (mkSession (c, journal)))
  = (journal ++ [operationalCommand rpcCommand Sprintf_beyond cmd format])%list.
Proof.
  rewrite Command_outcome. unfold sent. simpl. apply recording_journal.
Qed.

(** C4: [Command cmd format] sends one RPC: the template under the key
    "command-xml" formatted with [cmd] when [format] is "xml", and the
    template under the key "command" formatted with [cmd] for every other
    value of [format]. *)
Theorem command_template_by_format (cmd format : string) (c : conn)
    (journal : list string) :
  let run :=
    Command (recording Exec) rpcCommand Sprintf_beyond Unmarshal_beyond
      cmd format (mkSession (c, journal)) in
  (format = "xml" ->
     sent run =
     (journal ++ [fmt_Sprintf Sprintf_beyond (rpcCommand_at rpcCommand "command-xml")
                    [fmt.Str cmd]])%list) /\
  (format <> "xml" ->
     sent run =
     (journal ++ [fmt_Sprintf Sprintf_beyond (rpcCommand_at rpcCommand "command")
                    [fmt.Str cmd]])%list).
Proof.
  intros run. unfold run. rewrite Command_sent. unfold operationalCommand.
  split.
  - intros ->. reflexivity.
  - intros Hne. apply String.eqb_neq in Hne. rewrite Hne. reflexivity.
Qed.

End Sent.

(** ** The rollback comparison of the specification *)

Lemma no_changes_payload_decodes :
  xml.Unmarshal
    "<rollback-information><configuration-information><configuration-output>no changes</configuration-output></configuration-information></rollback-information>"
    rollbackXML
  = Some (inr "no changes").
Proof. vm_compute. reflexivity. Qed.

Section Scenario.

Context {conn : Type}.
Variable Exec : conn -> string -> conn * result RPCReply.
Variable rpcCommand : gmap string string.
Variable Sprintf_beyond : string -> list fmt.operand -> string.
Variable Unmarshal_beyond : string -> xml.structInfo -> result string.

(** C7: [RollbackDiff 0], answered with an envelope marked [Ok] whose data
    is the rollback-information document around the text "no changes",
    returns "no changes" and a nil error. *)
Theorem RollbackDiff_no_changes (s : Session conn) (reply : RPCReply) :
  snd (Exec (Conn s) (compareCommand rpcCommand Sprintf_beyond 0)) = inr reply ->
  Ok reply = true ->
  Data reply =
    "<rollback-information><configuration-information><configuration-output>no changes</configuration-output></configuration-information></rollback-information>" ->
  snd (RollbackDiff Exec rpcCommand Sprintf_beyond Unmarshal_beyond 0 s)
  = Returned ("no changes", None).
Proof.
  intros Hexec Hok Hdata.
  rewrite RollbackDiff_outcome. simpl. rewrite Hexec. simpl.
  unfold deviceError, xml_Unmarshal. rewrite Hok, Hdata.
  rewrite no_changes_payload_decodes. reflexivity.
Qed.

End Scenario.

(** ** What the methods hand back *)




Section Shape.

Context {conn : Type}.
Variable Exec : conn -> string -> conn * result RPCReply.
Variable rpcCommand : gmap string string.
Variable Sprintf_beyond : string -> list fmt.operand -> string.
Variable Unmarshal_beyond : string -> xml.structInfo -> result string.


End Shape.


(** ** Formatting a template with a numeric slot *)

Lemma append_cons (c : ascii) (s t : string) : String c s ++ t = String c (s ++ t).
Proof. reflexivity. Qed.

Lemma append_empty_l (t : string) : "" ++ t = t.
Proof. reflexivity. Qed.

Lemma append_empty_r (s : string) : s ++ "" = s.
Proof.
  induction s as [|c s IH]; [reflexivity|]. by rewrite append_cons, IH.
Qed.


(** Plain text in front of a directive is copied as it is. *)
Lemma doPrintf_plain (pre rest : string) (a : list fmt.operand) :
  plainText pre = true ->
  fmt.doPrintf (pre ++ rest) a = append pre <$> fmt.doPrintf rest a.
Proof.
  induction pre as [|c pre IH]; intros Hplain.
  - rewrite append_empty_l. by destruct (fmt.doPrintf rest a).
  - apply andb_prop in Hplain as [Hc Hpre].
    apply negb_true_iff in Hc. rewrite append_cons. simpl.
    rewrite Hc, (IH Hpre).
    by destruct (fmt.doPrintf rest a).
Qed.

Lemma doPrintf_plain_end (post : string) :
  plainText post = true -> fmt.doPrintf post [] = Some post.
Proof.
  intros Hplain.
  rewrite <- (append_empty_r post) at 1.
  rewrite (doPrintf_plain post "" [] Hplain). simpl.
  by rewrite append_empty_r.
Qed.

(** [Sprintf] on a template with one [%d] slot between plain text. *)
Lemma Sprintf_numeric_slot (pre post : string) (n : Z) :
  plainText pre = true ->
  plainText post = true ->
  fmt.Sprintf (pre ++ "%d" ++ post) [fmt.Int n] = Some (pre ++ fmt.Itoa n ++ post).
Proof.
  intros Hpre Hpost. unfold fmt.Sprintf.
  rewrite (doPrintf_plain pre _ _ Hpre). rewrite !append_cons, append_empty_l.
  simpl. by rewrite (doPrintf_plain_end post Hpost).
Qed.

(** *** The decimal rendering *)




(** Reading the rendering back gives the integer: the rendering is the
    decimal one. *)
Lemma Itoa_read_back (n : Z) :
  Z.of_int <$> NilZero.int_of_string (fmt.Itoa n) = Some n.
Proof.
  unfold fmt.Itoa. rewrite NilZero.isi.
  - simpl. f_equal. apply DecimalZ.of_to.
  - destruct n as [|p|p]; simpl; try discriminate.
    intros [= H]. by apply (Unsigned.to_uint_nonnil p).
  - destruct n as [|p|p]; simpl; try discriminate.
    intros [= H]. by apply (Unsigned.to_uint_nonnil p).
Qed.

(** *** Where the rendering occurs in the formatted text *)











Section NumericSlot.

Context {conn : Type}.
Variable Exec : conn -> string -> conn * result RPCReply.
Variable rpcCommand : gmap string string.
Variable Sprintf_beyond : string -> list fmt.operand -> string.
Variable Unmarshal_beyond : string -> xml.structInfo -> result string.


End NumericSlot.


(** ** Fatal exits, and the RPCs sent *)

Lemma Unmarshal_no_payload (v : xml.structInfo) :
  xml.Unmarshal "" v = Some (inl io_EOF).
Proof. reflexivity. Qed.

(** [Sprintf] on a template with one [%s] slot between plain text. *)
Lemma Sprintf_string_slot (pre post cmd : string) :
  plainText pre = true ->
  plainText post = true ->
  fmt.Sprintf (pre ++ "%s" ++ post) [fmt.Str cmd] = Some (pre ++ cmd ++ post).
Proof.
  intros Hpre Hpost. unfold fmt.Sprintf.
  rewrite (doPrintf_plain pre _ _ Hpre). rewrite !append_cons, append_empty_l.
  simpl. by rewrite (doPrintf_plain_end post Hpost).
Qed.

Section Effects.

Context {conn : Type}.
Variable Exec : conn -> string -> conn * result RPCReply.
Variable rpcCommand : gmap string string.
Variable Sprintf_beyond : string -> list fmt.operand -> string.
Variable Unmarshal_beyond : string -> xml.structInfo -> result string.

(** X1: when [Exec] itself fails, no method returns: each one ends the
    process with that error. *)
Theorem transport_error_is_fatal (s : Session conn) (err : error) :
  (forall command, snd (Exec (Conn s) command) = inl err) ->
  snd (Lock Exec rpcCommand s) = Exited err /\
  snd (Unlock Exec rpcCommand s) = Exited err /\
  (forall number,
     snd (GetRollbackConfig Exec rpcCommand Sprintf_beyond Unmarshal_beyond number s)
     = Exited err) /\
  (forall compare,
     snd (RollbackDiff Exec rpcCommand Sprintf_beyond Unmarshal_beyond compare s)
     = Exited err) /\
  snd (GetRescueConfig Exec rpcCommand Unmarshal_beyond s) = Exited err /\
  (forall cmd format,
     snd (Command Exec rpcCommand Sprintf_beyond Unmarshal_beyond cmd format s)
     = Exited err).
Proof.
  intros Hexec.
  rewrite Lock_outcome, Unlock_outcome, GetRescueConfig_outcome. simpl.
  rewrite !Hexec. simpl.
  repeat split; try reflexivity; intros.
  - rewrite GetRollbackConfig_outcome. simpl. by rewrite Hexec.
  - rewrite RollbackDiff_outcome. simpl. by rewrite Hexec.
  - rewrite Command_outcome. simpl. by rewrite Hexec.
Qed.

(** X2: an envelope marked [Ok] that carries no payload at all is fatal to
    the fetching methods: [xml.Unmarshal] reports [io.EOF] and the process
    exits; no placeholder is returned. *)
Theorem no_payload_is_fatal (s : Session conn) (reply : RPCReply) :
  (forall command, snd (Exec (Conn s) command) = inr reply) ->
  Ok reply = true ->
  Data reply = "" ->
  (forall number,
     snd (GetRollbackConfig Exec rpcCommand Sprintf_beyond Unmarshal_beyond number s)
     = Exited io_EOF) /\
  (forall compare,
     snd (RollbackDiff Exec rpcCommand Sprintf_beyond Unmarshal_beyond compare s)
     = Exited io_EOF) /\
  snd (GetRescueConfig Exec rpcCommand Unmarshal_beyond s) = Exited io_EOF /\
  (forall cmd format,
     snd (Command Exec rpcCommand Sprintf_beyond Unmarshal_beyond cmd format s)
     = Exited io_EOF).
Proof.
  intros Hexec Hok Hdata.
  assert (Hfetch : forall v fallback,
             fetchOutcome Unmarshal_beyond v fallback (inr reply) = Exited io_EOF).
  { intros v fallback. unfold fetchOutcome, deviceError, xml_Unmarshal.
    by rewrite Hok, Hdata, Unmarshal_no_payload. }
  rewrite GetRescueConfig_outcome. simpl. rewrite Hexec.
  repeat split; try apply Hfetch; intros.
  - rewrite GetRollbackConfig_outcome. simpl. rewrite Hexec. apply Hfetch.
  - rewrite RollbackDiff_outcome. simpl. rewrite Hexec. apply Hfetch.
  - rewrite Command_outcome. simpl. rewrite Hexec. apply Hfetch.
Qed.

(** X3: every method hands exactly one RPC text to [Exec]: its template as
    it stands, or its template formatted with the argument. *)
Theorem one_RPC_per_call (c : conn) (journal : list string) :
  let s := mkSession (c, journal) in
  sent (Lock (recording Exec) rpcCommand s)
  = (journal ++ [rpcCommand_at rpcCommand "lock"])%list /\
  sent (Unlock (recording Exec) rpcCommand s)
  = (journal ++ [rpcCommand_at rpcCommand "unlock"])%list /\
  (forall number,
     sent (GetRollbackConfig (recording Exec) rpcCommand Sprintf_beyond
             Unmarshal_beyond number s)
     = (journal ++ [fmt_Sprintf Sprintf_beyond
                      (rpcCommand_at rpcCommand "get-rollback-information")
                      [fmt.Int number]])%list) /\
  (forall compare,
     sent (RollbackDiff (recording Exec) rpcCommand Sprintf_beyond
             Unmarshal_beyond compare s)
     = (journal ++ [fmt_Sprintf Sprintf_beyond
                      (rpcCommand_at rpcCommand "get-rollback-information-compare")
                      [fmt.Int compare]])%list) /\
  sent (GetRescueConfig (recording Exec) rpcCommand Unmarshal_beyond s)
  = (journal ++ [rpcCommand_at rpcCommand "get-rescue-information"])%list.
Proof.
  intros s. unfold s. split; [|split; [|split; [|split]]].
  - rewrite Lock_outcome. unfold sent. simpl. apply recording_journal.
  - rewrite Unlock_outcome. unfold sent. simpl. apply recording_journal.
  - intros number. apply GetRollbackConfig_sent.
  - intros compare. apply RollbackDiff_sent.
  - rewrite GetRescueConfig_outcome. unfold sent. simpl. apply recording_journal.
Qed.

(** X4: [Command] embeds [cmd] in its template as it is, byte for byte:
    nothing is escaped. *)
Theorem command_text_unescaped (pre post cmd format : string) (c : conn)
    (journal : list string) :
  plainText pre = true ->
  plainText post = true ->
  rpcCommand !! (if String.eqb format "xml" then "command-xml" else "command")
  = Some (pre ++ "%s" ++ post) ->
  sent (Command (recording Exec) rpcCommand Sprintf_beyond Unmarshal_beyond
          cmd format (mkSession (c, journal)))
  = (journal ++ [(pre ++ cmd ++ post)%string])%list.
Proof.
  intros Hpre Hpost Htemplate. rewrite Command_sent.
  unfold operationalCommand, rpcCommand_at, fmt_Sprintf.
  destruct (String.eqb format "xml"); rewrite Htemplate; simpl;
    by rewrite (Sprintf_string_slot pre post cmd Hpre Hpost).
Qed.

End Effects.

(** ** Decoding a payload of elements and character data *)

Lemma append_assoc (s t u : string) : (s ++ t) ++ u = s ++ t ++ u.
Proof.
  induction s as [|c s IH]; [reflexivity|]. by rewrite !append_cons, IH.
Qed.

Lemma length_append (s t : string) :
  String.length (s ++ t) = String.length s + String.length t.
Proof.
  induction s as [|c s IH]; [reflexivity|]. rewrite append_cons. simpl.
  by rewrite IH.
Qed.

Lemma element_append (n content rest : string) :
  element n content ++ rest
  = String "<" (n ++ String ">" (content ++ String "<" (String "/" (n ++ String ">" rest)))).
Proof.
  unfold element. rewrite !append_assoc. rewrite !append_cons, !append_empty_l.
  reflexivity.
Qed.

Lemma span_stop (p : ascii -> bool) (n : string) (c : ascii) (rest : string) :
  allBytes p n = true -> p c = false ->
  xml.span p (n ++ String c rest) = (n, String c rest).
Proof.
  intros Hn Hc. induction n as [|a n IH].
  - rewrite append_empty_l. simpl. by rewrite Hc.
  - simpl in Hn. apply andb_prop in Hn as [Ha Hn].
    rewrite append_cons. simpl. by rewrite Ha, (IH Hn).
Qed.

Lemma elementName_valid (n : string) (c : ascii) (rest : string) :
  validName n = true -> xml.isNameByte c = false ->
  xml.elementName (n ++ String c rest) = Some (n, String c rest).
Proof.
  intros Hn Hc. unfold xml.elementName.
  destruct n as [|a n]; [done|].
  unfold validName in Hn. apply andb_prop in Hn as [Hhead Hbytes].
  rewrite (span_stop _ _ _ _ Hbytes Hc).
  apply andb_prop in Hhead as [Hlead Hcolon]. by rewrite Hlead, Hcolon.
Qed.

Lemma rawToken_open (c : ascii) (s : string) :
  (c =? "/")%char = false ->
  xml.rawToken (String "<" (String c s))
  = ('(name, s2) ← xml.elementName (String c s);
     '(empty, rest) ← xml.attributes (S (String.length s2)) s2;
     Some (Some (if empty : bool then xml.EmptyElement name else xml.StartElement name,
                 rest))).
Proof.
  intros Hc. destruct c as [[] [] [] [] [] [] [] []]; try reflexivity; discriminate.
Qed.

Lemma rawToken_text (c : ascii) (s : string) :
  (c =? "<")%char = false ->
  xml.rawToken (String c s)
  = ('(t, rest) ← xml.text None "000"%char "000"%char (String c s);
     Some (Some (xml.CharData t, rest))).
Proof.
  intros Hc. destruct c as [[] [] [] [] [] [] [] []]; try reflexivity; discriminate.
Qed.

Lemma validName_head (n : string) :
  validName n = true ->
  exists c n', n = String c n' /\ (c =? "/")%char = false.
Proof.
  destruct n as [|c n']; [done|]. intros Hn. exists c, n'. split; [reflexivity|].
  unfold validName in Hn. apply andb_prop in Hn as [[Hlead _]%andb_prop _].
  destruct (Ascii.eqb_spec c "/") as [->|]; [|reflexivity].
  by vm_compute in Hlead.
Qed.

Lemma rawToken_start (n rest : string) :
  validName n = true ->
  xml.rawToken (String "<" (n ++ String ">" rest))
  = Some (Some (xml.StartElement n, rest)).
Proof.
  intros Hn. destruct (validName_head n Hn) as (c & n' & Heq & Hc).
  rewrite Heq at 1. rewrite append_cons, (rawToken_open c _ Hc).
  rewrite <- append_cons, <- Heq.
  by rewrite (elementName_valid n ">" rest Hn).
Qed.

Lemma rawToken_end (n rest : string) :
  validName n = true ->
  xml.rawToken (String "<" (String "/" (n ++ String ">" rest)))
  = Some (Some (xml.EndElement n, rest)).
Proof.
  intros Hn. unfold xml.rawToken.
  by rewrite (elementName_valid n ">" rest Hn).
Qed.

Lemma text_data (body rest : string) (b0 b1 : ascii) :
  characterData body = true ->
  xml.text None b0 b1 (body ++ String "<" rest) = Some (body, String "<" rest).
Proof.
  revert b0 b1. induction body as [|b body IH]; intros b0 b1 Hbody.
  - rewrite append_empty_l. simpl. by rewrite andb_false_r.
  - unfold characterData in Hbody. simpl in Hbody.
    apply andb_prop in Hbody as [Hb Hbody]. unfold isDataByte in Hb.
    apply andb_prop in Hb as [[[Hplain Hlt]%andb_prop Hamp]%andb_prop Hgt].
    apply negb_true_iff in Hlt, Hamp, Hgt.
    rewrite append_cons. simpl. rewrite Hgt, andb_false_r, Hlt, Hamp, Hplain.
    by rewrite (IH b1 b Hbody).
Qed.

Lemma rawToken_data (body rest : string) :
  characterData body = true -> body <> "" ->
  xml.rawToken (body ++ String "<" rest)
  = Some (Some (xml.CharData body, String "<" rest)).
Proof.
  intros Hbody Hne. destruct body as [|b body']; [done|].
  assert (Hb : (b =? "<")%char = false).
  { unfold characterData in Hbody. simpl in Hbody.
    apply andb_prop in Hbody as [Hb _]. unfold isDataByte in Hb.
    apply andb_prop in Hb as [[[_ Hlt]%andb_prop _]%andb_prop _].
    by apply negb_true_iff in Hlt. }
  rewrite append_cons, (rawToken_text b _ Hb), <- append_cons.
  by rewrite (text_data _ rest _ _ Hbody).
Qed.

(** Steps of [elements] and of [findStart], by the token read. *)
Lemma elements_start (fuel : nat) (tag : xml.fieldTag) (open n : string)
    (fr : xml.frame) (below : list (string * xml.frame)) (data config s rest : string) :
  xml.rawToken s = Some (Some (xml.StartElement n, rest)) ->
  xml.elements (S fuel) tag ((open, fr) :: below) data config s
  = xml.elements fuel tag ((n, xml.enter tag fr n) :: (open, fr) :: below)
      (match xml.enter tag fr n with xml.Target => "" | _ => data end) config rest.
Proof. intros Htok. simpl. by rewrite Htok. Qed.

Lemma elements_data (fuel : nat) (tag : xml.fieldTag) (open : string)
    (fr : xml.frame) (below : list (string * xml.frame)) (data config s t rest : string) :
  xml.rawToken s = Some (Some (xml.CharData t, rest)) ->
  xml.elements (S fuel) tag ((open, fr) :: below) data config s
  = xml.elements fuel tag ((open, fr) :: below)
      (match fr with xml.Target => data ++ t | _ => data end) config rest.
Proof. intros Htok. simpl. by rewrite Htok. Qed.

Lemma elements_end (fuel : nat) (tag : xml.fieldTag) (open : string)
    (fr : xml.frame) (outer : string * xml.frame) (below : list (string * xml.frame))
    (data config s rest : string) :
  xml.rawToken s = Some (Some (xml.EndElement open, rest)) ->
  xml.elements (S fuel) tag ((open, fr) :: outer :: below) data config s
  = xml.elements fuel tag (outer :: below) data
      (match fr with xml.Target => data | _ => config end) rest.
Proof. intros Htok. simpl. rewrite Htok. simpl. by rewrite String.eqb_refl. Qed.

Lemma elements_end_root (fuel : nat) (tag : xml.fieldTag) (open : string)
    (fr : xml.frame) (data config s rest : string) :
  xml.rawToken s = Some (Some (xml.EndElement open, rest)) ->
  xml.elements (S fuel) tag [(open, fr)] data config s
  = Some (match fr with xml.Target => data | _ => config end, s).
Proof. intros Htok. simpl. rewrite Htok. simpl. by rewrite String.eqb_refl. Qed.

Lemma elements_fuel_mono (fuel fuel' : nat) (tag : xml.fieldTag)
    (stack : list (string * xml.frame)) (data config s : string)
    (r : string * string) :
  fuel <= fuel' ->
  xml.elements fuel tag stack data config s = Some r ->
  xml.elements fuel' tag stack data config s = Some r.
Proof.
  revert fuel' stack data config s.
  induction fuel as [|fuel IH]; intros fuel' stack data config s Hle; [done|].
  destruct fuel' as [|fuel']; [lia|]. assert (Hle' : fuel <= fuel') by lia.
  simpl. destruct (xml.rawToken s) as [[[t rest]|]|]; simpl; try done.
  destruct stack as [|[open fr] below]; [done|].
  destruct t as [n|n|n|t]; try (apply IH; exact Hle').
  destruct (String.eqb n open); [|done].
  destruct below; [done|]. apply IH; exact Hle'.
Qed.

Lemma findStart_start (fuel : nat) (s n rest : string) :
  xml.rawToken s = Some (Some (xml.StartElement n, rest)) ->
  xml.findStart (S fuel) s = Some (inr (n, false, rest)).
Proof. intros Htok. simpl. by rewrite Htok. Qed.

Lemma findStart_data (fuel : nat) (s t rest : string) :
  xml.rawToken s = Some (Some (xml.CharData t, rest)) ->
  xml.findStart (S fuel) s = xml.findStart fuel rest.
Proof. intros Htok. simpl. by rewrite Htok. Qed.

(** The first start element behind leading character data. *)
Lemma findStart_element (lead n rest : string) :
  characterData lead = true -> validName n = true ->
  xml.findStart (S (String.length (lead ++ String "<" (n ++ String ">" rest))))
    (lead ++ String "<" (n ++ String ">" rest))
  = Some (inr (n, false, rest)).
Proof.
  intros Hlead Hn. destruct lead as [|b lead'] eqn:Heq.
  - rewrite append_empty_l. apply findStart_start. by apply rawToken_start.
  - rewrite <- Heq in *.
    rewrite (findStart_data _ _ lead (String "<" (n ++ String ">" rest))).
    + rewrite length_append. cbn [String.length]. rewrite Nat.add_succ_r.
      apply findStart_start. by apply rawToken_start.
    + apply rawToken_data; [exact Hlead|]. by rewrite Heq.
Qed.

Lemma enter_parent (parents ps : list string) (p field : string) :
  xml.enter (xml.Path parents field) (xml.Seeking (p :: ps)) p = xml.Seeking ps.
Proof. unfold xml.enter. by rewrite String.eqb_refl. Qed.

Lemma enter_field (parents : list string) (field : string) :
  xml.enter (xml.Path parents field) (xml.Seeking []) field = xml.Target.
Proof. unfold xml.enter. by rewrite String.eqb_refl. Qed.

(** The run of [elements] over a field element that holds character data
    only, inside one parent, up to the end tag of the struct's element. *)
Lemma elements_path_data (r p f body trailing : string) (parents : list string) :
  validName r = true -> validName p = true -> validName f = true ->
  characterData body = true ->
  xml.elements 6 (xml.Path parents f) [(r, xml.Seeking [p])] "" ""
    (element p (element f body) ++ String "<" (String "/" (r ++ String ">" trailing)))
  = Some (body, String "<" (String "/" (r ++ String ">" trailing))).
Proof.
  intros Hr Hp Hf Hbody.
  rewrite element_append, element_append.
  rewrite (elements_start _ _ _ _ _ _ _ _ _ _ (rawToken_start p _ Hp)).
  rewrite enter_parent. cbv beta iota.
  rewrite (elements_start _ _ _ _ _ _ _ _ _ _ (rawToken_start f _ Hf)).
  rewrite enter_field. cbv beta iota.
  destruct body as [|b body'] eqn:Heq.
  - rewrite append_empty_l.
    rewrite (elements_end _ _ _ _ _ _ _ _ _ _ (rawToken_end f _ Hf)). cbv beta iota.
    rewrite (elements_end _ _ _ _ _ _ _ _ _ _ (rawToken_end p _ Hp)). cbv beta iota.
    by rewrite (elements_end_root _ _ _ _ _ _ _ _ (rawToken_end r _ Hr)).
  - rewrite <- Heq in *.
    assert (Hne : body <> "") by (by rewrite Heq).
    rewrite (elements_data _ _ _ _ _ _ _ _ _ _ (rawToken_data body _ Hbody Hne)).
    cbv beta iota. rewrite append_empty_l.
    rewrite (elements_end _ _ _ _ _ _ _ _ _ _ (rawToken_end f _ Hf)). cbv beta iota.
    rewrite (elements_end _ _ _ _ _ _ _ _ _ _ (rawToken_end p _ Hp)). cbv beta iota.
    by rewrite (elements_end_root _ _ _ _ _ _ _ _ (rawToken_end r _ Hr)).
Qed.



(** [Unmarshal] behind [findStart], with the run of [elements] given. *)
Lemma Unmarshal_found (data name rest config remain : string) (info : xml.structInfo) :
  xml.findStart (S (String.length data)) data = Some (inr (name, false, rest)) ->
  (forall want, xml.XMLName_tag info = Some want -> want = name) ->
  xml.elements (S (String.length rest)) (xml.Config_tag info)
    [(name, match xml.Config_tag info with
            | xml.Path parents _ => xml.Seeking parents
            | xml.InnerXML => xml.Seeking []
            end)] "" "" rest
  = Some (config, remain) ->
  xml.Unmarshal data info
  = Some (inr match xml.Config_tag info with
              | xml.Path _ _ => config
              | xml.InnerXML =>
                  xml.take (String.length rest - String.length remain) rest
              end).
Proof.
  intros Hfind Hname Helements. unfold xml.Unmarshal. rewrite Hfind.
  cbn -[xml.elements String.length].
  destruct (xml.XMLName_tag info) as [want|] eqn:Hwant.
  - rewrite (Hname want eq_refl), String.eqb_refl. cbn -[xml.elements String.length].
    by rewrite Helements.
  - by rewrite Helements.
Qed.


(** A document of one field element inside one parent inside the struct's
    element decodes to the character data of the field element; character
    data in front of the document is dropped and what follows it is not
    read. *)
Lemma Unmarshal_path_data (r p f lead body trailing : string) :
  validName r = true -> validName p = true -> validName f = true ->
  characterData lead = true -> characterData body = true ->
  xml.Unmarshal (lead ++ element r (element p (element f body)) ++ trailing)
    {| xml.XMLName_tag := Some r; xml.Config_tag := xml.Path [p] f |}
  = Some (inr body).
Proof.
  intros Hr Hp Hf Hlead Hbody. rewrite element_append.
  erewrite (Unmarshal_found _ r _ body
              (String "<" (String "/" (r ++ String ">" trailing)))).
  - reflexivity.
  - by apply findStart_element.
  - by intros want [= <-].
  - cbn [xml.Config_tag].
    apply (elements_fuel_mono 6); [|by apply elements_path_data].
    rewrite !element_append.
    repeat (cbn [String.length] || rewrite length_append). lia.
Qed.



(** ** The text a device wraps is the text returned *)

Section Decoded.

Context {conn : Type}.
Variable Exec : conn -> string -> conn * result RPCReply.
Variable rpcCommand : gmap string string.
Variable Sprintf_beyond : string -> list fmt.operand -> string.
Variable Unmarshal_beyond : string -> xml.structInfo -> result string.

(** X5: answered with an envelope marked [Ok] whose data is the rollback
    document around a text of plain character data, [GetRollbackConfig] and
    [RollbackDiff] return that text, byte for byte, with a nil error; the
    empty text too.  Character data in front of the document and anything
    behind it make no difference. *)
Theorem rollback_text_returned (s : Session conn) (reply : RPCReply)
    (lead text trailing : string) :
  (forall command, snd (Exec (Conn s) command) = inr reply) ->
  Ok reply = true ->
  Data reply = lead ++ rollbackDocument text ++ trailing ->
  characterData lead = true ->
  characterData text = true ->
  (forall number,
     snd (GetRollbackConfig Exec rpcCommand Sprintf_beyond Unmarshal_beyond number s)
     = Returned (text, None)) /\
  (forall compare,
     snd (RollbackDiff Exec rpcCommand Sprintf_beyond Unmarshal_beyond compare s)
     = Returned (text, None)).
Proof.
  intros Hexec Hok Hdata Hlead Htext.
  assert (Hfetch : fetchOutcome Unmarshal_beyond rollbackXML None (inr reply)
                   = Returned (text, None)).
  { unfold fetchOutcome, deviceError, xml_Unmarshal. rewrite Hok, Hdata.
    unfold rollbackDocument, rollbackXML.
    by rewrite (Unmarshal_path_data "rollback-information"
                  "configuration-information" "configuration-output"
                  lead text trailing). }
  split; intros.
  - rewrite GetRollbackConfig_outcome. simpl. by rewrite Hexec.
  - rewrite RollbackDiff_outcome. simpl. by rewrite Hexec.
Qed.

(** X6: the same for [GetRescueConfig] and the rescue document, except that
    the empty text comes back as the placeholder. *)
Theorem rescue_text_returned (s : Session conn) (reply : RPCReply)
    (lead text trailing : string) :
  (forall command, snd (Exec (Conn s) command) = inr reply) ->
  Ok reply = true ->
  Data reply = lead ++ rescueDocument text ++ trailing ->
  characterData lead = true ->
  characterData text = true ->
  snd (GetRescueConfig Exec rpcCommand Unmarshal_beyond s)
  = Returned (if String.eqb text "" then "No rescue configuration set." else text,
              None).
Proof.
  intros Hexec Hok Hdata Hlead Htext.
  rewrite GetRescueConfig_outcome. simpl. rewrite Hexec.
  unfold fetchOutcome, deviceError, xml_Unmarshal. rewrite Hok, Hdata.
  unfold rescueDocument, rescueXML.
  by rewrite (Unmarshal_path_data "rescue-information"
                "configuration-information" "configuration-output"
                lead text trailing).
Qed.



(** X9: the descriptors of an envelope marked [Ok] are not looked at:
    [Lock] and [Unlock] return nil, and every fetching method ends as it
    does over a connection that answers with the same data and no
    descriptor. *)
Theorem ok_descriptors_ignored (s : Session conn) (reply : RPCReply) :
  (forall command, snd (Exec (Conn s) command) = inr reply) ->
  Ok reply = true ->
  (snd (Lock Exec rpcCommand s) = Returned None /\
   snd (Unlock Exec rpcCommand s) = Returned None) /\
  (forall Exec_clean : conn -> string -> conn * result RPCReply,
     (forall command,
        snd (Exec_clean (Conn s) command) = inr (mkRPCReply true [] (Data reply))) ->
     (forall number,
        snd (GetRollbackConfig Exec rpcCommand Sprintf_beyond Unmarshal_beyond number s)
        = snd (GetRollbackConfig Exec_clean rpcCommand Sprintf_beyond Unmarshal_beyond
                 number s)) /\
     (forall compare,
        snd (RollbackDiff Exec rpcCommand Sprintf_beyond Unmarshal_beyond compare s)
        = snd (RollbackDiff Exec_clean rpcCommand Sprintf_beyond Unmarshal_beyond
                 compare s)) /\
     snd (GetRescueConfig Exec rpcCommand Unmarshal_beyond s)
     = snd (GetRescueConfig Exec_clean rpcCommand Unmarshal_beyond s) /\
     (forall cmd format,
        snd (Command Exec rpcCommand Sprintf_beyond Unmarshal_beyond cmd format s)
        = snd (Command Exec_clean rpcCommand Sprintf_beyond Unmarshal_beyond
                 cmd format s))).
Proof.
  intros Hexec Hok.
  assert (Hdev : deviceError reply = None)
    by (apply deviceError_None; left; exact Hok).
  split.
  - rewrite Lock_outcome, Unlock_outcome. simpl. rewrite !Hexec. simpl.
    by rewrite Hdev.
  - intros Exec_clean Hclean.
    rewrite !GetRescueConfig_outcome. simpl. rewrite Hexec, Hclean. simpl.
    rewrite Hdev. repeat split; try reflexivity; intros.
    + rewrite !GetRollbackConfig_outcome. simpl. rewrite Hexec, Hclean. simpl.
      by rewrite Hdev.
    + rewrite !RollbackDiff_outcome. simpl. rewrite Hexec, Hclean. simpl.
      by rewrite Hdev.
    + rewrite !Command_outcome. simpl. rewrite Hexec, Hclean. simpl.
      by rewrite Hdev.
Qed.

End Decoded.

(** ** Templates: distinct numbers, missing keys *)

Lemma append_inv_head (s x y : string) : s ++ x = s ++ y -> x = y.
Proof.
  induction s as [|c s IH]; [done|]. rewrite !append_cons. intros [= H]. auto.
Qed.

Lemma append_inv_tail (x y t : string) : x ++ t = y ++ t -> x = y.
Proof.
  revert y. induction x as [|c x IH]; intros [|c' y] Heq.
  - reflexivity.
  - apply (f_equal String.length) in Heq. rewrite !length_append in Heq.
    simpl in Heq. lia.
  - apply (f_equal String.length) in Heq. rewrite !length_append in Heq.
    simpl in Heq. lia.
  - rewrite !append_cons in Heq. injection Heq as -> Heq. f_equal. by apply IH.
Qed.

Lemma Itoa_injective (n n' : Z) : fmt.Itoa n = fmt.Itoa n' -> n = n'.
Proof.
  intros Heq. pose proof (Itoa_read_back n) as Hn.
  rewrite Heq, Itoa_read_back in Hn. by injection Hn.
Qed.

Section Templates.

Context {conn : Type}.
Variable Exec : conn -> string -> conn * result RPCReply.
Variable rpcCommand : gmap string string.
Variable Sprintf_beyond : string -> list fmt.operand -> string.
Variable Unmarshal_beyond : string -> xml.structInfo -> result string.

(** X10: with a template that is plain text around one [%d] slot, calls of
    [GetRollbackConfig] (of [RollbackDiff]) with different numbers send
    different RPC texts. *)
Theorem rollback_numbers_told_apart (pre post : string) (n n' : Z) (c : conn)
    (journal : list string) :
  plainText pre = true ->
  plainText post = true ->
  n <> n' ->
  (rpcCommand !! "get-rollback-information" = Some (pre ++ "%d" ++ post) ->
   sent (GetRollbackConfig (recording Exec) rpcCommand Sprintf_beyond
           Unmarshal_beyond n (mkSession (c, journal)))
   <> sent (GetRollbackConfig (recording Exec) rpcCommand Sprintf_beyond
              Unmarshal_beyond n' (mkSession (c, journal)))) /\
  (rpcCommand !! "get-rollback-information-compare" = Some (pre ++ "%d" ++ post) ->
   sent (RollbackDiff (recording Exec) rpcCommand Sprintf_beyond
           Unmarshal_beyond n (mkSession (c, journal)))
   <> sent (RollbackDiff (recording Exec) rpcCommand Sprintf_beyond
              Unmarshal_beyond n' (mkSession (c, journal)))).
Proof.
  intros Hpre Hpost Hne.
  assert (Hinj : pre ++ fmt.Itoa n ++ post = pre ++ fmt.Itoa n' ++ post -> n = n').
  { intros Heq. apply append_inv_head, append_inv_tail in Heq.
    by apply Itoa_injective. }
  split; intros Htemplate Hsent; apply Hne, Hinj.
  - rewrite !GetRollbackConfig_sent in Hsent.
    apply app_inv_head in Hsent. injection Hsent as Hsent.
    unfold rollbackCommand, rpcCommand_at, fmt_Sprintf in Hsent.
    rewrite Htemplate in Hsent. simpl in Hsent.
    by rewrite !Sprintf_numeric_slot in Hsent.
  - rewrite !RollbackDiff_sent in Hsent.
    apply app_inv_head in Hsent. injection Hsent as Hsent.
    unfold compareCommand, rpcCommand_at, fmt_Sprintf in Hsent.
    rewrite Htemplate in Hsent. simpl in Hsent.
    by rewrite !Sprintf_numeric_slot in Hsent.
Qed.

(** X11: no method checks that its template is in the table.  A missing
    key reads as the empty template: [Lock] then sends the empty text, and
    a formatting method sends only the note [Sprintf] leaves about the
    operand it found no slot for. *)
Theorem missing_template (c : conn) (journal : list string) :
  let s := mkSession (c, journal) in
  (rpcCommand !! "lock" = None ->
   sent (Lock (recording Exec) rpcCommand s) = (journal ++ [""])%list) /\
  (rpcCommand !! "get-rollback-information" = None ->
   forall number,
     sent (GetRollbackConfig (recording Exec) rpcCommand Sprintf_beyond
             Unmarshal_beyond number s)
     = (journal ++ [("%!(EXTRA int=" ++ fmt.Itoa number ++ ")")%string])%list) /\
  (rpcCommand !! "command" = None ->
   forall cmd format,
     format <> "xml" ->
     sent (Command (recording Exec) rpcCommand Sprintf_beyond
             Unmarshal_beyond cmd format s)
     = (journal ++ [("%!(EXTRA string=" ++ cmd ++ ")")%string])%list).
Proof.
  intros s. unfold s. split; [|split].
  - intros Hkey. rewrite Lock_outcome. unfold sent. simpl.
    etrans; [apply recording_journal|]. unfold rpcCommand_at. by rewrite Hkey.
  - intros Hkey number. rewrite GetRollbackConfig_sent.
    unfold rollbackCommand, rpcCommand_at. by rewrite Hkey.
  - intros Hkey cmd format Hformat. rewrite Command_sent.
    unfold operationalCommand, rpcCommand_at.
    apply String.eqb_neq in Hformat. by rewrite Hformat, Hkey.
Qed.

End Templates.

(** ** Opening, closing, and calls on a closed session *)

Section Closing.

Context {conn : Type}.
Variable DialSSH : string -> SSHConfig -> result conn.
Variable Conn_Close : conn -> conn * option error.
Variable Exec : conn -> string -> conn * result RPCReply.
Variable rpcCommand : gmap string string.
Variable Sprintf_beyond : string -> list fmt.operand -> string.
Variable Unmarshal_beyond : string -> xml.structInfo -> result string.

(** X12: [Close] always returns, whatever the connection reports on
    closing, and leaves the closed connection in the session.  No method
    looks whether the session is open: when the closed connection refuses
    RPCs with an error, every call made after [Close] ends the process with
    that error. *)
Theorem call_after_Close (s : Session conn) (err : error) :
  (forall command, snd (Exec (fst (Conn_Close (Conn s))) command) = inl err) ->
  let closed := fst (Close Conn_Close s) in
  snd (Close Conn_Close s) = Returned tt /\
  Conn closed = fst (Conn_Close (Conn s)) /\
  snd (Lock Exec rpcCommand closed) = Exited err /\
  snd (Unlock Exec rpcCommand closed) = Exited err /\
  (forall number,
     snd (GetRollbackConfig Exec rpcCommand Sprintf_beyond Unmarshal_beyond
            number closed) = Exited err) /\
  (forall compare,
     snd (RollbackDiff Exec rpcCommand Sprintf_beyond Unmarshal_beyond
            compare closed) = Exited err) /\
  snd (GetRescueConfig Exec rpcCommand Unmarshal_beyond closed) = Exited err /\
  (forall cmd format,
     snd (Command Exec rpcCommand Sprintf_beyond Unmarshal_beyond
            cmd format closed) = Exited err).
Proof.
  intros Hrefuse closed.
  assert (Hclosed : Conn closed = fst (Conn_Close (Conn s))).
  { unfold closed, Close, proc, bind, Conn_Close_call.
    by destruct (Conn_Close (Conn s)). }
  split.
  { unfold Close, proc, bind, Conn_Close_call. by destruct (Conn_Close (Conn s)). }
  split; [exact Hclosed|].
  rewrite Lock_outcome, Unlock_outcome, GetRescueConfig_outcome. simpl.
  rewrite !Hclosed, !Hrefuse. simpl.
  repeat split; try reflexivity; intros.
  - rewrite GetRollbackConfig_outcome. simpl. by rewrite Hclosed, Hrefuse.
  - rewrite RollbackDiff_outcome. simpl. by rewrite Hclosed, Hrefuse.
  - rewrite Command_outcome. simpl. by rewrite Hclosed, Hrefuse.
Qed.

(** X13: [NewSession] hands no error to its caller: when dialling fails
    the process exits with the dial error.  When it succeeds, the session
    returned holds the dialled connection, and over a device whose replies
    are all marked [Ok] a whole session runs through: [Lock] and [Unlock]
    return nil, [Close] returns, and the connection closed at the end is the
    dialled one after it has executed the lock RPC and then the unlock RPC.
    [DialSSH] is given the host and the password configuration of the user
    and password passed in. *)
Theorem session_round_trip (host user password : string) :
  (forall err,
     DialSSH host (SSHConfigPassword user password) = inl err ->
     NewSession DialSSH host user password = Exited err) /\
  (forall c0,
     DialSSH host (SSHConfigPassword user password) = inr c0 ->
     (forall c command, exists reply,
         snd (Exec c command) = inr reply /\ Ok reply = true) ->
     let s0 := mkSession c0 in
     let s1 := fst (Lock Exec rpcCommand s0) in
     let s2 := fst (Unlock Exec rpcCommand s1) in
     NewSession DialSSH host user password = Returned s0 /\
     snd (Lock Exec rpcCommand s0) = Returned None /\
     snd (Unlock Exec rpcCommand s1) = Returned None /\
     snd (Close Conn_Close s2) = Returned tt /\
     Conn (fst (Close Conn_Close s2))
     = fst (Conn_Close
              (fst (Exec (fst (Exec c0 (rpcCommand_at rpcCommand "lock")))
                      (rpcCommand_at rpcCommand "unlock"))))).
Proof.
  split.
  - intros err Hdial. unfold NewSession, func, bind, netconf_DialSSH. simpl.
    by rewrite Hdial.
  - intros c0 Hdial Hok s0 s1 s2.
    assert (Hnil : forall c command, lockOutcome (snd (Exec c command)) = Returned None).
    { intros c command. destruct (Hok c command) as (reply & -> & Hreply).
      simpl. unfold deviceError. by rewrite Hreply. }
    split; [|split; [|split; [|split]]].
    + unfold NewSession, func, bind, netconf_DialSSH. simpl. by rewrite Hdial.
    + rewrite Lock_outcome. simpl. apply Hnil.
    + rewrite Unlock_outcome. simpl. apply Hnil.
    + unfold Close, proc, bind, Conn_Close_call. by destruct (Conn_Close (Conn s2)).
    + unfold s2, s1, s0. rewrite Unlock_outcome, Lock_outcome. simpl.
      unfold Close, proc, bind, Conn_Close_call. simpl.
      by destruct (Conn_Close _).
Qed.

End Closing.

(** * The properties at sample inputs *)

(** The envelope with the descriptors "A" and "B": every method reports "A". *)
Lemma first_descriptor_only_AB :
  Error (errors_New "A") = "A" /\
  snd (Lock (replying (inr envelopeAB)) sampleCommands (mkSession tt))
  = Returned (Some (errors_New "A")) /\
  snd (GetRollbackConfig (replying (inr envelopeAB)) sampleCommands
         noSprintf noUnmarshal 1 (mkSession tt))
  = Returned ("", Some (errors_New "A")) /\
  snd (Command (replying (inr envelopeAB)) sampleCommands
         noSprintf noUnmarshal "show version" "text" (mkSession tt))
  = Returned ("", Some (errors_New "A")).
Proof.
  destruct (first_descriptor_only (replying (inr envelopeAB)) sampleCommands
              noSprintf noUnmarshal (mkSession tt) envelopeAB
              (mkRPCError "A") [mkRPCError "B"])
    as (Hmessage & Hlock & _ & Hfetch & _ & _ & Hcommand);
    [intros; reflexivity | reflexivity | reflexivity |].
  split; [exact Hmessage|]. split; [exact Hlock|].
  split; [apply Hfetch | apply Hcommand].
Defined.

Lemma lock_then_unlock_counting :
  snd (Lock counting sampleCommands (mkSession 0)) = Returned None /\
  snd (Unlock counting sampleCommands (fst (Lock counting sampleCommands (mkSession 0))))
  = Returned None.
Proof.
  apply (lock_then_unlock counting sampleCommands (mkSession 0)).
  intros c command. eexists. split; reflexivity.
Defined.



Lemma fetch_and_diff_agree_no_changes :
  snd (GetRollbackConfig (replying (inr noChanges)) sampleCommands
         noSprintf noUnmarshal 1 (mkSession tt))
  = snd (RollbackDiff (replying (inr noChanges)) sampleCommands
           noSprintf noUnmarshal 0 (mkSession tt)).
Proof.
  apply (fetch_and_diff_agree (replying (inr noChanges)) sampleCommands
           noSprintf noUnmarshal 1 0 (mkSession tt) (mkSession tt) noChanges);
    reflexivity.
Defined.


Lemma RollbackDiff_no_changes_sample :
  snd (RollbackDiff (replying (inr noChanges)) sampleCommands
         noSprintf noUnmarshal 0 (mkSession tt))
  = Returned ("no changes", None).
Proof.
  apply (RollbackDiff_no_changes (replying (inr noChanges)) sampleCommands
           noSprintf noUnmarshal (mkSession tt) noChanges); reflexivity.
Defined.


Lemma command_template_by_format_samples :
  sent (Command (recording (replying (inr someOutput))) sampleCommands
          noSprintf noUnmarshal "show version" "xml" (mkSession (tt, [])))
  = ["<command format='xml'>show version</command>"] /\
  sent (Command (recording (replying (inr someOutput))) sampleCommands
          noSprintf noUnmarshal "show version" "text" (mkSession (tt, [])))
  = ["<command format='text'>show version</command>"] /\
  sent (Command (recording (replying (inr someOutput))) sampleCommands
          noSprintf noUnmarshal "show version" "anything-else" (mkSession (tt, [])))
  = ["<command format='text'>show version</command>"].
Proof.
  split; [|split].
  - apply (command_template_by_format (replying (inr someOutput)) sampleCommands
             noSprintf noUnmarshal "show version" "xml" tt []).
    reflexivity.
  - apply (command_template_by_format (replying (inr someOutput)) sampleCommands
             noSprintf noUnmarshal "show version" "text" tt []).
    discriminate.
  - apply (command_template_by_format (replying (inr someOutput)) sampleCommands
             noSprintf noUnmarshal "show version" "anything-else" tt []).
    discriminate.
Defined.

Lemma transport_error_is_fatal_sample :
  snd (Lock (replying (inl (foreign_error "connection reset"))) sampleCommands
         (mkSession tt))
  = Exited (foreign_error "connection reset") /\
  snd (GetRescueConfig (replying (inl (foreign_error "connection reset")))
         sampleCommands noUnmarshal (mkSession tt))
  = Exited (foreign_error "connection reset").
Proof.
  destruct (transport_error_is_fatal
              (replying (inl (foreign_error "connection reset"))) sampleCommands
              noSprintf noUnmarshal (mkSession tt) (foreign_error "connection reset"))
    as (Hlock & _ & _ & _ & Hrescue & _); [intros; reflexivity|].
  split; [exact Hlock | exact Hrescue].
Defined.

Lemma no_payload_is_fatal_sample :
  snd (GetRescueConfig (replying (inr (mkRPCReply true [] ""))) sampleCommands
         noUnmarshal (mkSession tt))
  = Exited io_EOF /\
  snd (Command (replying (inr (mkRPCReply true [] ""))) sampleCommands
         noSprintf noUnmarshal "show version" "text" (mkSession tt))
  = Exited io_EOF.
Proof.
  destruct (no_payload_is_fatal (replying (inr (mkRPCReply true [] "")))
              sampleCommands noSprintf noUnmarshal (mkSession tt)
              (mkRPCReply true [] ""))
    as (_ & _ & Hrescue & Hcommand);
    [intros; reflexivity | reflexivity | reflexivity |].
  split; [exact Hrescue | apply Hcommand].
Defined.

Lemma command_text_unescaped_sample :
  sent (Command (recording (replying (inr someOutput))) sampleCommands
          noSprintf noUnmarshal "</command><x a='&'>" "text" (mkSession (tt, [])))
  = ["<command format='text'></command><x a='&'></command>"].
Proof.
  apply (command_text_unescaped (replying (inr someOutput)) sampleCommands
           noSprintf noUnmarshal "<command format='text'>" "</command>"
           "</command><x a='&'>" "text" tt []);
    vm_compute; reflexivity.
Defined.

Lemma rollback_text_returned_sample :
  snd (GetRollbackConfig (replying (inr diffReply)) sampleCommands
         noSprintf noUnmarshal 2 (mkSession tt))
  = Returned (sampleDiff, None) /\
  snd (RollbackDiff (replying (inr diffReply)) sampleCommands
         noSprintf noUnmarshal 2 (mkSession tt))
  = Returned (sampleDiff, None).
Proof.
  destruct (rollback_text_returned (replying (inr diffReply)) sampleCommands
              noSprintf noUnmarshal (mkSession tt) diffReply
              (String "010" "") sampleDiff (String "010" ""))
    as (Hfetch & Hdiff);
    [intros; reflexivity | reflexivity | reflexivity | reflexivity | reflexivity |].
  split; [apply Hfetch | apply Hdiff].
Defined.

Lemma rescue_text_returned_sample :
  snd (GetRescueConfig (replying (inr rescueReply)) sampleCommands noUnmarshal
         (mkSession tt))
  = Returned (sampleDiff, None).
Proof.
  apply (rescue_text_returned (replying (inr rescueReply)) sampleCommands
           noUnmarshal (mkSession tt) rescueReply
           (String "010" "") sampleDiff (String "010" ""));
    solve [intros; reflexivity].
Defined.



Lemma ok_descriptors_ignored_sample :
  snd (Lock (replying (inr warnedOk)) sampleCommands (mkSession tt)) = Returned None /\
  snd (RollbackDiff (replying (inr warnedOk)) sampleCommands
         noSprintf noUnmarshal 0 (mkSession tt))
  = snd (RollbackDiff (replying (inr noChanges)) sampleCommands
           noSprintf noUnmarshal 0 (mkSession tt)).
Proof.
  destruct (ok_descriptors_ignored (replying (inr warnedOk)) sampleCommands
              noSprintf noUnmarshal (mkSession tt) warnedOk)
    as ((Hlock & _) & Hsame); [intros; reflexivity | reflexivity |].
  split; [exact Hlock|].
  destruct (Hsame (replying (inr noChanges))) as (_ & Hdiff & _);
    [intros; reflexivity|].
  apply Hdiff.
Defined.

Lemma rollback_numbers_told_apart_sample :
  sent (GetRollbackConfig (recording (replying (inr noChanges))) sampleCommands
          noSprintf noUnmarshal 1 (mkSession (tt, [])))
  <> sent (GetRollbackConfig (recording (replying (inr noChanges))) sampleCommands
             noSprintf noUnmarshal 10 (mkSession (tt, []))) /\
  sent (GetRollbackConfig (recording (replying (inr noChanges))) sampleCommands
          noSprintf noUnmarshal 10 (mkSession (tt, [])))
  = ["<get-rollback-information><rollback>10</rollback></get-rollback-information>"].
Proof.
  split; [|vm_compute; reflexivity].
  apply (rollback_numbers_told_apart (replying (inr noChanges)) sampleCommands
           noSprintf noUnmarshal
           "<get-rollback-information><rollback>"
           "</rollback></get-rollback-information>" 1 10 tt []);
    [reflexivity | reflexivity | discriminate | vm_compute; reflexivity].
Defined.

Lemma missing_template_sample :
  sent (Lock (recording (replying (inr noChanges))) ∅ (mkSession (tt, []))) = [""] /\
  sent (GetRollbackConfig (recording (replying (inr noChanges))) ∅
          noSprintf noUnmarshal 7 (mkSession (tt, [])))
  = ["%!(EXTRA int=7)"] /\
  sent (Command (recording (replying (inr noChanges))) ∅
          noSprintf noUnmarshal "show version" "text" (mkSession (tt, [])))
  = ["%!(EXTRA string=show version)"].
Proof.
  destruct (missing_template (replying (inr noChanges)) ∅ noSprintf noUnmarshal tt [])
    as (Hlock & Hfetch & Hcommand).
  split; [apply Hlock; reflexivity|].
  split; [apply Hfetch; reflexivity|].
  apply Hcommand; [reflexivity | discriminate].
Defined.

Lemma call_after_Close_sample :
  snd (Close sampleClose (mkSession true)) = Returned tt /\
  snd (Lock sampleExec sampleCommands (fst (Close sampleClose (mkSession true))))
  = Exited (foreign_error "session closed") /\
  snd (Lock sampleExec sampleCommands (mkSession true)) = Returned None.
Proof.
  destruct (call_after_Close sampleClose sampleExec sampleCommands
              noSprintf noUnmarshal (mkSession true)
              (foreign_error "session closed"))
    as (Hclose & _ & Hlock & _); [intros; reflexivity|].
  split; [exact Hclose|]. split; [exact Hlock | reflexivity].
Defined.

Lemma session_round_trip_sample :
  NewSession sampleDial "r1.example.net" "admin" "wrong"
  = Exited (foreign_error "ssh: unable to authenticate") /\
  NewSession sampleDial "r1.example.net" "admin" "secret" = Returned (mkSession 0) /\
  snd (Unlock counting sampleCommands
         (fst (Lock counting sampleCommands (mkSession 0))))
  = Returned None /\
  Conn (fst (Close countingClose
               (fst (Unlock counting sampleCommands
                       (fst (Lock counting sampleCommands (mkSession 0)))))))
  = 2.
Proof.
  split.
  - apply (session_round_trip sampleDial countingClose counting sampleCommands
             "r1.example.net" "admin" "wrong"). reflexivity.
  - destruct (session_round_trip sampleDial countingClose counting sampleCommands
                "r1.example.net" "admin" "secret") as [_ Hopen].
    destruct (Hopen 0) as (Hsession & _ & Hunlock & _ & Hclosed);
      [reflexivity | intros c command; eexists; split; reflexivity |].
    split; [exact Hsession|]. split; [exact Hunlock | exact Hclosed].
Defined.
